(** * hue-lights: the connection-owning daemon

    A shallow embedding of [hue_ble.py] (class [HueBulbConnection]) and of
    [daemon.py] (class [HueDaemon]), followed by the properties of the
    natural-language specification that concern them.

    - Python values that travel in requests, responses and the config file are
      the inductive [pyval]; a [dict] is an association list in insertion
      order (the order [json.dumps] prints).
    - Python's [float] is IEEE binary64, which is what Rocq's primitive floats
      are: the brightness arithmetic is embedded on [PrimFloat] as written.
    - A coroutine is a function in the monad [M S A]: it takes the state [S],
      and gives an [outcome] (a value or a raised exception), the new state
      and the events it performed, in order.  [await] is sequencing.
    - The BLE transport, the file system and the client's socket are outside
      the repository; their behaviour is the record [Env]. *)

From Stdlib Require Import ZArith List Lia Bool String Ascii.
From Stdlib.Strings Require Import Byte.
From Stdlib Require Import Floats Uint63 DecimalString.
Import ListNotations.

Local Open Scope string_scope.
Local Open Scope list_scope.
Local Open Scope Z_scope.

(* ================================================================== *)
(** ** Python values and dictionaries *)

Inductive pyval : Type :=
| PNone
| PBool (b : bool)
| PInt (z : Z)
| PStr (s : string).

(** Truth value of an object, as [if x:] and [not x] take it. *)
Definition truthy (v : pyval) : bool :=
  match v with
  | PNone => false
  | PBool b => b
  | PInt z => negb (z =? 0)
  | PStr s => negb (s =? "")%string
  end.

(** [a == b]; [bool] is a subclass of [int], so [True == 1]. *)
Definition py_eqb (a b : pyval) : bool :=
  match a, b with
  | PNone, PNone => true
  | PStr s, PStr t => (s =? t)%string
  | PInt x, PInt y => x =? y
  | PBool x, PBool y => Bool.eqb x y
  | PBool x, PInt y | PInt y, PBool x => (if x then 1 else 0) =? y
  | _, _ => false
  end.

(** [str(v)], as an f-string prints it. *)
Definition py_str (v : pyval) : string :=
  match v with
  | PNone => "None"
  | PBool true => "True"
  | PBool false => "False"
  | PInt z => NilZero.string_of_int (Z.to_int z)
  | PStr s => s
  end.

Definition dict : Type := list (string * pyval).

(** [d.get(k, default)]. *)
Fixpoint dict_get_default (k : string) (d : dict) (default : pyval) : pyval :=
  match d with
  | [] => default
  | (k', v) :: d' => if (k' =? k)%string then v else dict_get_default k d' default
  end.

(** [d.get(k)]: [None] when the key is absent. *)
Definition dict_get (k : string) (d : dict) : pyval := dict_get_default k d PNone.

(** [k in d]. *)
Fixpoint dict_mem (k : string) (d : dict) : bool :=
  match d with
  | [] => false
  | (k', _) :: d' => (k' =? k)%string || dict_mem k d'
  end.

(** [d[k] = v]: an existing key keeps its place, a new one goes last. *)
Fixpoint dict_set (k : string) (v : pyval) (d : dict) : dict :=
  match d with
  | [] => [(k, v)]
  | (k', v') :: d' =>
      if (k' =? k)%string then (k, v) :: d' else (k', v') :: dict_set k v d'
  end.

(** [needle in hay] on strings. *)
Fixpoint contains (needle hay : string) : bool :=
  if prefix needle hay then true
  else match hay with
       | EmptyString => false
       | String _ hay' => contains needle hay'
       end.

(* ================================================================== *)
(** ** Exceptions, outcomes, events and the monad *)

(** The exception classes the code tells apart.  [asyncio.TimeoutError] is
    the builtin [TimeoutError] (Python 3.11 and later); [PyException] is any
    other subclass of [Exception].  Each carries its [str(e)]. *)
Inductive exn : Type :=
| TimeoutError (msg : string)
| BleakError (msg : string)
| PyException (msg : string).

Definition exn_str (e : exn) : string :=
  match e with
  | TimeoutError msg | BleakError msg | PyException msg => msg
  end.

Inductive outcome (A : Type) : Type :=
| Ok (a : A)
| Raised (e : exn).
Arguments Ok {A} a.
Arguments Raised {A} e.

(** What the program does to the world outside, in the order it does it. *)
Inductive event : Type :=
| LockAcquire                              (* async with self._lock: enter *)
| LockRelease                              (* async with self._lock: exit *)
| BleConnect (address : pyval)             (* BleakClient.connect *)
| BleRead (uuid : string)                  (* BleakClient.read_gatt_char *)
| BleWrite (uuid : string) (data : list byte) (* BleakClient.write_gatt_char *)
| BlePair                                  (* BleakClient.pair *)
| BleDisconnect                            (* BleakClient.disconnect *)
| ConfigSave (config : dict)               (* CONFIG_FILE.write_text *)
| SockWrite (response : dict)              (* writer.write(json.dumps(..)) *)
| SockDrain                                (* await writer.drain() *)
| SockClose                                (* writer.close() *)
| SockWaitClosed                           (* await writer.wait_closed() *)
| ServerStart                              (* asyncio.start_server *)
| ServerClose                              (* self.server.close() *)
| ServerWaitClosed                         (* await self.server.wait_closed() *)
| PidWrite                                 (* PID_FILE.write_text *)
| PidUnlink                                (* PID_FILE.unlink *)
| Stdout (msg : string).                  (* print(msg) *)

Definition M (S A : Type) : Type := S -> outcome A * S * list event.

Definition ret {S A} (a : A) : M S A := fun s => (Ok a, s, []).

Definition raise {S A} (e : exn) : M S A := fun s => (Raised e, s, []).

Definition bind {S A B} (m : M S A) (k : A -> M S B) : M S B :=
  fun s =>
    match m s with
    | (Ok a, s1, t1) => let '(r, s2, t2) := k a s1 in (r, s2, t1 ++ t2)
    | (Raised e, s1, t1) => (Raised e, s1, t1)
    end.

Definition get {S} : M S S := fun s => (Ok s, s, []).

Definition modify {S} (f : S -> S) : M S unit := fun s => (Ok tt, f s, []).

Definition emit {S} (ev : event) : M S unit := fun s => (Ok tt, s, [ev]).

(** [try: body / except Exception as e: handler e]; a handler that does not
    match re-raises. *)
Definition try_except {S A} (body : M S A) (handler : exn -> M S A) : M S A :=
  fun s =>
    match body s with
    | (Ok a, s1, t1) => (Ok a, s1, t1)
    | (Raised e, s1, t1) => let '(r, s2, t2) := handler e s1 in (r, s2, t1 ++ t2)
    end.

(** [try: body / finally: cleanup]. *)
Definition try_finally {S A} (body : M S A) (cleanup : M S unit) : M S A :=
  fun s =>
    let '(r, s1, t1) := body s in
    match cleanup s1 with
    | (Ok _, s2, t2) => (r, s2, t1 ++ t2)
    | (Raised e, s2, t2) => (Raised e, s2, t1 ++ t2)
    end.

(** An outcome decided outside the program, raised or returned. *)
Definition of_outcome {S A} (o : outcome A) : M S A := fun s => (o, s, []).

Declare Scope py_scope.
Delimit Scope py_scope with py.
Notation "x <- m ;; k" := (bind m (fun x => k))
  (at level 61, m at next level, right associativity) : py_scope.
Notation "m ;; k" := (bind m (fun _ => k))
  (at level 61, right associativity) : py_scope.
Local Open Scope py_scope.

Definition print {S} (msg : string) : M S unit := emit (Stdout msg).

(** The result, the final state and the events of a run. *)
Definition result_of {S A} (x : outcome A * S * list event) : outcome A := fst (fst x).
Definition state_of {S A} (x : outcome A * S * list event) : S := snd (fst x).
Definition events_of {S A} (x : outcome A * S * list event) : list event := snd x.

(* ================================================================== *)
(** ** Floating point: [/], [*] and [int()] on Python numbers *)

(** [float(z)], exact for [|z| < 2^53]. *)
Definition float_of_int (z : Z) : float :=
  if z <? 0 then PrimFloat.opp (PrimFloat.of_uint63 (Uint63.of_Z (- z)))
  else PrimFloat.of_uint63 (Uint63.of_Z z).

(** [a / b] on two ints: true division. *)
Definition py_truediv (a b : Z) : float :=
  PrimFloat.div (float_of_int a) (float_of_int b).

(** [x * n] for a float and an int. *)
Definition py_mul (x : float) (n : Z) : float :=
  PrimFloat.mul x (float_of_int n).

(** [int(x)]: truncation towards zero; an infinity or a NaN raises. *)
Definition py_int (x : float) : outcome Z :=
  match Prim2SF x with
  | S754_zero _ => Ok 0
  | S754_finite s m e =>
      let mag := match e with
                 | Z0 => Zpos m
                 | Zpos p => Z.shiftl (Zpos m) (Zpos p)
                 | Zneg p => Z.shiftr (Zpos m) (Zpos p)
                 end in
      Ok (if s then - mag else mag)
  | S754_infinity _ => Raised (PyException "cannot convert float infinity to integer")
  | S754_nan => Raised (PyException "cannot convert float NaN to integer")
  end.

(** [round(x)]: to the nearest integer, a tie to the even one. *)
Definition py_round (x : float) : outcome Z :=
  match Prim2SF x with
  | S754_zero _ => Ok 0
  | S754_finite s m e =>
      let mag := match e with
                 | Z0 => Zpos m
                 | Zpos p => Z.shiftl (Zpos m) (Zpos p)
                 | Zneg p =>
                     let q := Z.shiftr (Zpos m) (Zpos p) in
                     let twice_rest := 2 * (Zpos m - Z.shiftl q (Zpos p)) in
                     let unit := Z.shiftl 1 (Zpos p) in
                     if twice_rest <? unit then q
                     else if unit <? twice_rest then q + 1
                     else if Z.even q then q else q + 1
                 end in
      Ok (if s then - mag else mag)
  | S754_infinity _ => Raised (PyException "cannot convert float infinity to integer")
  | S754_nan => Raised (PyException "cannot convert float NaN to integer")
  end.

Definition outcome_map {A B} (f : A -> B) (o : outcome A) : outcome B :=
  match o with
  | Ok a => Ok (f a)
  | Raised e => Raised e
  end.

(* ================================================================== *)
(** ** hue_ble.py *)

Definition HUE_SERVICE_UUID : string := "932c32bd-0000-47a2-835a-a8d455b859dd".
Definition POWER_CHAR_UUID : string := "932c32bd-0002-47a2-835a-a8d455b859dd".
Definition BRIGHTNESS_CHAR_UUID : string := "932c32bd-0003-47a2-835a-a8d455b859dd".

(** [percent = max(1, min(100, percent))].  [min] and [max] compare with [<]
    and [>]: an int or a bool is clamped, anything else is a [TypeError]. *)
Definition clamp_percent (percent : pyval) : outcome Z :=
  match percent with
  | PInt z => Ok (Z.max 1 (Z.min 100 z))
  | PBool b => Ok (Z.max 1 (Z.min 100 (if b then 1 else 0)))
  | PStr _ =>
      Raised (PyException "'<' not supported between instances of 'str' and 'int'")
  | PNone =>
      Raised (PyException "'<' not supported between instances of 'NoneType' and 'int'")
  end.

(** [value = int((percent / 100) * 253) + 1]  (set_brightness, line 183). *)
Definition brightness_value (percent : Z) : outcome Z :=
  outcome_map (fun v => v + 1) (py_int (py_mul (py_truediv percent 100) 253)).

(** [brightness_percent = max(1, min(100, int(((brightness_raw - 1) / 253) * 100)))]
    (get_state, line 202). *)
Definition brightness_percent (brightness_raw : Z) : outcome Z :=
  outcome_map (fun v => Z.max 1 (Z.min 100 v))
    (py_int (py_mul (py_truediv (brightness_raw - 1) 253) 100)).

(** [bytes([value])]. *)
Definition bytes_of_value (value : Z) : outcome (list byte) :=
  if (0 <=? value) && (value <? 256) then
    match Byte.of_N (Z.to_N value) with
    | Some b => Ok [b]
    | None => Raised (PyException "bytes must be in range(0, 256)")
    end
  else Raised (PyException "bytes must be in range(0, 256)").

Definition byte_value (b : byte) : Z := Z.of_N (Byte.to_N b).

(** The [BleakClient] object, as far as the code looks at it. *)
Record BleakClient : Type := mkBleakClient {
  client_address : pyval;
  client_timeout : float;
  client_is_connected : bool
}.

Record HueBulbConnection : Type := mkHueBulbConnection {
  address : pyval;
  _client : option BleakClient;
  _disconnect_event : bool;
  _connected : bool
}.

(** The files the program keeps. *)
Record World : Type := mkWorld {
  config_file : dict;      (* load_config(): an absent file reads as empty *)
  pid_file : bool          (* PID_FILE.exists() *)
}.

(** What the collaborators answer: the peripheral behind [BleakClient], the
    config file's write, and the socket of the client being served. *)
Record Env : Type := mkEnv {
  dev_connect : outcome unit;            (* await client.connect() *)
  dev_link_up : bool;                    (* client.is_connected after it *)
  dev_read : string -> outcome (list byte);
  dev_write : string -> list byte -> outcome unit;
  dev_pair : outcome unit;
  dev_disconnect : outcome unit;
  fs_save_config : outcome unit;
  peer_drain : outcome unit              (* await writer.drain() *)
}.

(** [HueBulbConnection(address)]. *)
Definition new_connection (addr : pyval) : HueBulbConnection :=
  mkHueBulbConnection addr None false false.

(** The [is_connected] property. *)
Definition is_connected (self : HueBulbConnection) : bool :=
  _connected self &&
  match _client self with
  | Some c => client_is_connected c
  | None => false
  end.

(** [self._client and self._client.is_connected]. *)
Definition client_up (self : HueBulbConnection) : bool :=
  match _client self with
  | Some c => client_is_connected c
  | None => false
  end.

Definition set_client (c : option BleakClient) (self : HueBulbConnection) :=
  mkHueBulbConnection (address self) c (_disconnect_event self) (_connected self).
Definition set_disconnect_event (b : bool) (self : HueBulbConnection) :=
  mkHueBulbConnection (address self) (_client self) b (_connected self).
Definition set_connected (b : bool) (self : HueBulbConnection) :=
  mkHueBulbConnection (address self) (_client self) (_disconnect_event self) b.
Definition set_client_is_connected (b : bool) (self : HueBulbConnection) :=
  match _client self with
  | Some c => set_client (Some (mkBleakClient (client_address c) (client_timeout c) b)) self
  | None => self
  end.

Definition ConnSt : Type := (HueBulbConnection * World)%type.

Definition on_self (f : HueBulbConnection -> HueBulbConnection) : M ConnSt unit :=
  modify (fun st => (f (fst st), snd st)).

Definition attribute_error {A} (attr : string) : M ConnSt A :=
  raise (PyException ("'NoneType' object has no attribute '" ++ attr ++ "'")%string).

Section Connection.

Variable env : Env.

(** A call on [self._client]: with no client it is an [AttributeError]. *)
Definition client_call {A} (attr : string) (ev : event) (o : outcome A) : M ConnSt A :=
  st <- get ;;
  match _client (fst st) with
  | None => attribute_error attr
  | Some _ => emit ev ;; of_outcome o
  end.

Definition client_connect : M ConnSt unit :=
  st <- get ;;
  client_call "connect" (BleConnect (address (fst st))) (dev_connect env) ;;
  on_self (set_client_is_connected (dev_link_up env)).

Definition read_gatt_char (uuid : string) : M ConnSt (list byte) :=
  client_call "read_gatt_char" (BleRead uuid) (dev_read env uuid).

Definition write_gatt_char (uuid : string) (data : list byte) : M ConnSt unit :=
  client_call "write_gatt_char" (BleWrite uuid data) (dev_write env uuid data).

Definition client_pair : M ConnSt unit :=
  client_call "pair" BlePair (dev_pair env).

Definition client_disconnect : M ConnSt unit :=
  client_call "disconnect" BleDisconnect (dev_disconnect env) ;;
  on_self (set_client_is_connected false).

(** [async with self._lock: body]: the lock is released on every exit. *)
Definition with_lock {A} (body : M ConnSt A) : M ConnSt A :=
  emit LockAcquire ;;
  try_finally body (emit LockRelease).

Definition _save_working_address : M ConnSt unit :=
  st <- get ;;
  let config := dict_set "last_address" (address (fst st)) (config_file (snd st)) in
  emit (ConfigSave config) ;;
  of_outcome (fs_save_config env) ;;
  modify (fun st => (fst st, mkWorld config (pid_file (snd st)))).

Definition connect (timeout : float) : M ConnSt bool :=
  st <- get ;;
  if is_connected (fst st) then ret true
  else
    try_except
      (on_self (set_client (Some (mkBleakClient (address (fst st)) timeout false))) ;;
       client_connect ;;
       st <- get ;;
       if negb (client_up (fst st)) then ret false
       else
         on_self (set_connected true) ;;
         on_self (set_disconnect_event false) ;;
         (* Try pairing if needed *)
         try_except
           (read_gatt_char POWER_CHAR_UUID ;; ret tt)
           (fun e =>
              match e with
              | BleakError msg =>
                  if contains "Insufficient Encryption" msg || contains "0x0F" msg
                  then print "Pairing required..." ;; client_pair
                  else ret tt
              | _ => raise e
              end) ;;
         _save_working_address ;;
         ret true)
      (fun e =>
         match e with
         | TimeoutError _ => print "Connection timed out" ;; ret false
         | _ => print ("Connection error: " ++ exn_str e)%string ;; ret false
         end).

(** The [disconnected_callback]. *)
Definition _on_disconnect (self : HueBulbConnection) : HueBulbConnection :=
  set_disconnect_event true (set_connected false self).

Definition disconnect : M ConnSt unit :=
  on_self (set_disconnect_event true) ;;
  st <- get ;;
  (if client_up (fst st) then client_disconnect else ret tt) ;;
  on_self (set_client None) ;;
  on_self (set_connected false).

Definition turn_on : M ConnSt bool :=
  st <- get ;;
  if negb (is_connected (fst st)) then ret false
  else
    with_lock
      (try_except
         (write_gatt_char POWER_CHAR_UUID [x01] ;; ret true)
         (fun e =>
            match e with
            | BleakError msg => print ("Error: " ++ msg)%string ;; ret false
            | _ => raise e
            end)).

Definition turn_off : M ConnSt bool :=
  st <- get ;;
  if negb (is_connected (fst st)) then ret false
  else
    with_lock
      (try_except
         (write_gatt_char POWER_CHAR_UUID [x00] ;; ret true)
         (fun e =>
            match e with
            | BleakError msg => print ("Error: " ++ msg)%string ;; ret false
            | _ => raise e
            end)).

Definition set_brightness (percent : pyval) : M ConnSt bool :=
  st <- get ;;
  if negb (is_connected (fst st)) then ret false
  else
    percent <- of_outcome (clamp_percent percent) ;;
    value <- of_outcome (brightness_value percent) ;;
    with_lock
      (try_except
         (data <- of_outcome (bytes_of_value value) ;;
          write_gatt_char BRIGHTNESS_CHAR_UUID data ;; ret true)
         (fun e =>
            match e with
            | BleakError msg => print ("Error: " ++ msg)%string ;; ret false
            | _ => raise e
            end)).

Definition get_state : M ConnSt (option dict) :=
  st <- get ;;
  if negb (is_connected (fst st)) then ret None
  else
    with_lock
      (try_except
         (power_data <- read_gatt_char POWER_CHAR_UUID ;;
          brightness_data <- read_gatt_char BRIGHTNESS_CHAR_UUID ;;
          let power_on :=
            match power_data with
            | b :: _ => byte_value b =? 1
            | [] => false
            end in
          let brightness_raw :=
            match brightness_data with
            | b :: _ => byte_value b
            | [] => 1
            end in
          percent <- of_outcome (brightness_percent brightness_raw) ;;
          ret (Some [("power", PStr (if power_on then "on" else "off"));
                     ("brightness", PInt percent)]))
         (fun e =>
            match e with
            | BleakError msg => print ("Error: " ++ msg)%string ;; ret None
            | _ => raise e
            end)).

End Connection.

(* ================================================================== *)
(** ** daemon.py *)

Definition SOCKET_PORT : Z := 19847.

(** The [asyncio.Server] object. *)
Record Server : Type := mkServer {
  serving : bool
}.

Record HueDaemon : Type := mkHueDaemon {
  connection : option HueBulbConnection;
  server : option Server
}.

(** [HueDaemon()]. *)
Definition new_daemon : HueDaemon := mkHueDaemon None None.

Definition DaemonSt : Type := (HueDaemon * World)%type.

(** What [reader.readline()] and [json.loads] make of a session: nothing
    within five seconds, an empty read, a line that does not decode (or does
    not decode to an object), or a request. *)
Inductive incoming : Type :=
| ReadTimeout
| ReadEof
| ReadMalformed (msg : string)
| ReadRequest (request : dict).

(** [self.connection and self.connection.is_connected] as a condition. *)
Definition link_connected (d : HueDaemon) : bool :=
  match connection d with
  | Some c => is_connected c
  | None => false
  end.

(** The same expression as a value: [None] when there is no connection
    object, else the property's bool. *)
Definition link_connected_value (d : HueDaemon) : pyval :=
  match connection d with
  | Some c => PBool (is_connected c)
  | None => PNone
  end.

Definition set_connection (c : option HueBulbConnection) : M DaemonSt unit :=
  modify (fun st => (mkHueDaemon c (server (fst st)), snd st)).

Definition set_server (s : option Server) : M DaemonSt unit :=
  modify (fun st => (mkHueDaemon (connection (fst st)) s, snd st)).

Definition set_pid_file (b : bool) : M DaemonSt unit :=
  modify (fun st => (fst st, mkWorld (config_file (snd st)) b)).

(** A method call on [self.connection]. *)
Definition on_connection {A} (m : M ConnSt A) : M DaemonSt A :=
  fun st =>
    match connection (fst st) with
    | Some c =>
        let '(r, (c', w'), t) := m (c, snd st) in
        (r, (mkHueDaemon (Some c') (server (fst st)), w'), t)
    | None =>
        (Raised (PyException "'NoneType' object has no attribute"), st, [])
    end.

(** [self.connection.address]. *)
Definition address_of (c : HueBulbConnection) : pyval := address c.

Definition unknown_command : dict := [("ok", PBool false); ("error", PStr "Unknown command")].
Definition not_connected : dict := [("ok", PBool false); ("error", PStr "Not connected")].
Definition shutting_down : dict := [("ok", PBool true); ("message", PStr "Shutting down")].

Section Daemon.

Variable env : Env.

Definition writer_write (response : dict) : M DaemonSt unit :=
  emit (SockWrite response).

Definition writer_drain : M DaemonSt unit :=
  emit SockDrain ;; of_outcome (peer_drain env).

Definition writer_close : M DaemonSt unit := emit SockClose.

Definition writer_wait_closed : M DaemonSt unit := emit SockWaitClosed.

Definition stop : M DaemonSt unit :=
  st <- get ;;
  match connection (fst st) with
  | Some _ => on_connection (disconnect env)
  | None => ret tt
  end ;;
  st <- get ;;
  match server (fst st) with
  | Some _ =>
      emit ServerClose ;;
      set_server (Some (mkServer false)) ;;
      emit ServerWaitClosed
  | None => ret tt
  end ;;
  st <- get ;;
  (if pid_file (snd st) then emit PidUnlink ;; set_pid_file false else ret tt) ;;
  print "Daemon stopped.".

(** The [cmd == "connect"] branch of [handle_client] (lines 40-63);
    [response] comes in as the "Unknown command" default. *)
Definition handle_connect (request : dict) (response : dict) : M DaemonSt dict :=
  let address := dict_get "address" request in
  st <- get ;;
  let address :=
    if negb (truthy address) then dict_get "last_address" (config_file (snd st))
    else address in
  if negb (truthy address) then
    ret [("ok", PBool false); ("error", PStr "No address specified")]
  else
    response <-
      match connection (fst st) with
      | Some c =>
          if is_connected c then
            if py_eqb (address_of c) address then
              ret [("ok", PBool true); ("message", PStr "Already connected")]
            else
              on_connection (disconnect env) ;;
              set_connection None ;;
              ret response
          else ret response
      | None => ret response
      end ;;
    st <- get ;;
    if negb (link_connected (fst st)) then
      set_connection (Some (new_connection address)) ;;
      print ("Connecting to " ++ py_str address ++ "...")%string ;;
      success <- on_connection (connect env 30%float) ;;
      if success then
        ret [("ok", PBool true);
             ("message", PStr ("Connected to " ++ py_str address)%string)]
      else
        ret [("ok", PBool false); ("error", PStr "Connection failed")]
    else ret response.

(** The chain [if cmd == ... elif ...] of [handle_client] (lines 34-109).
    The result is the response still to be written, or [None] after
    [shutdown], which has written its own and returned. *)
Definition dispatch (request : dict) : M DaemonSt (option dict) :=
  let cmd := dict_get "cmd" request in
  let response := unknown_command in
  if py_eqb cmd (PStr "ping") then
    st <- get ;;
    ret (Some [("ok", PBool true); ("connected", link_connected_value (fst st))])
  else if py_eqb cmd (PStr "connect") then
    response <- handle_connect request response ;;
    ret (Some response)
  else if py_eqb cmd (PStr "disconnect") then
    st <- get ;;
    match connection (fst st) with
    | Some _ => on_connection (disconnect env) ;; set_connection None
    | None => ret tt
    end ;;
    ret (Some [("ok", PBool true)])
  else if py_eqb cmd (PStr "on") then
    st <- get ;;
    if link_connected (fst st) then
      success <- on_connection (turn_on env) ;;
      ret (Some [("ok", PBool success)])
    else ret (Some not_connected)
  else if py_eqb cmd (PStr "off") then
    st <- get ;;
    if link_connected (fst st) then
      success <- on_connection (turn_off env) ;;
      ret (Some [("ok", PBool success)])
    else ret (Some not_connected)
  else if py_eqb cmd (PStr "brightness") then
    let level := dict_get_default "level" request (PInt 50) in
    st <- get ;;
    if link_connected (fst st) then
      success <- on_connection (set_brightness env level) ;;
      ret (Some [("ok", PBool success)])
    else ret (Some not_connected)
  else if py_eqb cmd (PStr "status") then
    st <- get ;;
    if link_connected (fst st) then
      state <- on_connection (get_state env) ;;
      match state with
      | Some ((_ :: _) as state) => ret (Some (("ok", PBool true) :: state))
      | _ => ret (Some [("ok", PBool false); ("error", PStr "Failed to read state")])
      end
    else ret (Some not_connected)
  else if py_eqb cmd (PStr "shutdown") then
    let response := shutting_down in
    writer_write response ;;
    writer_drain ;;
    writer_close ;;
    stop ;;
    ret None
  else ret (Some response).

Definition handle_client (reader : incoming) : M DaemonSt unit :=
  try_finally
    (try_except
       (match reader with
        | ReadTimeout => raise (TimeoutError "")
        | ReadEof => ret tt
        | ReadMalformed msg => raise (PyException msg)
        | ReadRequest request =>
            response <- dispatch request ;;
            match response with
            | Some response => writer_write response ;; writer_drain
            | None => ret tt
            end
        end)
       (fun e =>
          match e with
          | TimeoutError _ => ret tt
          | _ =>
              try_except
                (writer_write [("ok", PBool false); ("error", PStr (exn_str e))] ;;
                 writer_drain)
                (fun _ => ret tt)
          end))
    (writer_close ;;
     try_except writer_wait_closed (fun _ => ret tt)).

(** [start], up to the accept loop [serve_forever]. *)
Definition start : M DaemonSt unit :=
  emit ServerStart ;;
  set_server (Some (mkServer true)) ;;
  emit PidWrite ;;
  set_pid_file true ;;
  print "Hue daemon listening on port 19847" ;;
  st <- get ;;
  let config := config_file (snd st) in
  if dict_mem "last_address" config then
    let address := dict_get "last_address" config in
    print ("Auto-connecting to " ++ py_str address ++ "...")%string ;;
    set_connection (Some (new_connection address)) ;;
    connected <- on_connection (connect env 30%float) ;;
    if connected then print "Connected!"
    else
      print "Auto-connect failed. Use CLI to connect manually." ;;
      set_connection None
  else ret tt.

End Daemon.

(* ================================================================== *)
(** ** Properties of event sequences *)

(** The operations that go over the wire to the peripheral. *)
Definition is_wire (ev : event) : bool :=
  match ev with
  | BleConnect _ | BleRead _ | BleWrite _ _ | BlePair | BleDisconnect => true
  | _ => false
  end.

(** The lock discipline of a sequence of events, [held] telling whether the
    lock is held when it starts: the lock is taken only when free, released
    only when held, every wire operation happens while it is held, and it is
    free at the end. *)
Fixpoint lock_guarded (held : bool) (t : list event) : bool :=
  match t with
  | [] => negb held
  | LockAcquire :: t' => negb held && lock_guarded true t'
  | LockRelease :: t' => held && lock_guarded false t'
  | ev :: t' => (if is_wire ev then held else true) && lock_guarded held t'
  end.

(** A schedule: the events of several sessions merged in the order they
    happen, each tagged with the session it belongs to. *)
Definition schedule : Type := list (nat * event).

Definition session_events (i : nat) (s : schedule) : list event :=
  map snd (filter (fun x => (fst x =? i)%nat) s).

Definition owner_is (i : nat) (owner : option nat) : bool :=
  match owner with
  | Some j => (i =? j)%nat
  | None => false
  end.

(** What [asyncio.Lock] gives: the lock is acquired only when it is free. *)
Fixpoint lock_respected (owner : option nat) (s : schedule) : bool :=
  match s with
  | [] => true
  | (i, LockAcquire) :: s' =>
      match owner with
      | None => lock_respected (Some i) s'
      | Some _ => false
      end
  | (_, LockRelease) :: s' => lock_respected None s'
  | _ :: s' => lock_respected owner s'
  end.

(** Every wire operation of a schedule is made by the session that owns the
    lock at that moment. *)
Fixpoint wire_exclusive (owner : option nat) (s : schedule) : bool :=
  match s with
  | [] => true
  | (i, LockAcquire) :: s' => wire_exclusive (Some i) s'
  | (_, LockRelease) :: s' => wire_exclusive None s'
  | (i, ev) :: s' =>
      (if is_wire ev then owner_is i owner else true) && wire_exclusive owner s'
  end.

(** The steps of the daemon's teardown. *)
Definition is_teardown (ev : event) : bool :=
  match ev with
  | BleDisconnect | ServerClose | ServerWaitClosed | PidUnlink => true
  | _ => false
  end.

(* ================================================================== *)
(** ** The brightness mapping in the specification's words *)

(** [round((percent/100) * 253) + 1]. *)
Definition spec_wire_value (percent : Z) : outcome Z :=
  outcome_map (fun v => v + 1) (py_round (py_mul (py_truediv percent 100) 253)).

(** [clamp(round(((raw-1)/253) * 100), 1, 100)]. *)
Definition spec_percent_from_wire (raw : Z) : outcome Z :=
  outcome_map (fun v => Z.max 1 (Z.min 100 v))
    (py_round (py_mul (py_truediv (raw - 1) 253) 100)).

(** ** Sample collaborators and states *)

(** A peripheral that answers everything: power on, brightness byte 127. *)
Definition good_env : Env :=
  mkEnv (Ok tt) true
        (fun uuid => if (uuid =? POWER_CHAR_UUID)%string then Ok [x01] else Ok [x7f])
        (fun _ _ => Ok tt) (Ok tt) (Ok tt) (Ok tt) (Ok tt).

Definition empty_world : World := mkWorld [] false.

(** A connection whose link to "AA:BB" is up. *)
Definition live_connection : HueBulbConnection :=
  mkHueBulbConnection (PStr "AA:BB")
    (Some (mkBleakClient (PStr "AA:BB") 30%float true)) false true.

Definition live_daemon : HueDaemon :=
  mkHueDaemon (Some live_connection) (Some (mkServer true)).

(** A peripheral whose [disconnect] fails. *)
Definition stuck_env : Env :=
  mkEnv (Ok tt) true (fun _ => Ok [x01]) (fun _ _ => Ok tt) (Ok tt)
        (Raised (BleakError "Not connected")) (Ok tt) (Ok tt).

(** A peripheral whose first read fails with a GATT error that is not about
    encryption. *)
Definition unreadable_env : Env :=
  mkEnv (Ok tt) true (fun _ => Raised (BleakError "Characteristic not found"))
        (fun _ _ => Ok tt) (Ok tt) (Ok tt) (Ok tt) (Ok tt).

(** A peripheral that asks for pairing at the first read. *)
Definition pairing_env : Env :=
  mkEnv (Ok tt) true
        (fun _ => Raised (BleakError "Insufficient Encryption (0x0F)"))
        (fun _ _ => Ok tt) (Ok tt) (Ok tt) (Ok tt) (Ok tt).

(** A peripheral that is out of reach. *)
Definition absent_env : Env :=
  mkEnv (Raised (TimeoutError "")) false (fun _ => Ok []) (fun _ _ => Ok tt)
        (Ok tt) (Ok tt) (Ok tt) (Ok tt).

(** ** The brightness round trip *)

Definition outcome_bind {A B} (o : outcome A) (k : A -> outcome B) : outcome B :=
  match o with
  | Ok a => k a
  | Raised e => Raised e
  end.

(** What [get_state] reports after [set_brightness percent], when the
    peripheral gives back the byte that was written. *)
Definition round_trip (percent : Z) : outcome Z :=
  outcome_bind (clamp_percent (PInt percent)) (fun percent =>
  outcome_bind (brightness_value percent) (fun value =>
  outcome_bind (bytes_of_value value) (fun data =>
  let brightness_raw := match data with b :: _ => byte_value b | [] => 1 end in
  brightness_percent brightness_raw))).

Definition outcome_Z_eqb (a b : outcome Z) : bool :=
  match a, b with
  | Ok x, Ok y => x =? y
  | _, _ => false
  end.

(** The integers [lo, lo+1, ..., lo+n-1]. *)
Definition range (lo : Z) (n : nat) : list Z :=
  map (fun i => lo + Z.of_nat i) (seq 0 n).

Definition round_trip_ok (percent : Z) : bool :=
  match round_trip percent with
  | Ok back =>
      (percent - 1 <=? back) && (back <=? percent + 1) &&
      implb (percent =? 1) (back =? 1) &&
      implb (percent =? 100) (back =? 100)
  | Raised _ => false
  end.

(* ================================================================== *)
(** ** hue_ble.py: scan_for_bulbs *)

(** [c.lower()] on one character.  Only ASCII letters change; on the
    comparison [scan_for_bulbs] makes this is [str.lower], since no other
    character lowercases to a hexadecimal digit or a dash. *)
Definition lower_ascii (c : ascii) : ascii :=
  let n := nat_of_ascii c in
  if ((65 <=? n) && (n <=? 90))%nat then ascii_of_nat (n + 32) else c.

(** [s.lower()]. *)
Fixpoint lower (s : string) : string :=
  match s with
  | EmptyString => EmptyString
  | String c s' => String (lower_ascii c) (lower s')
  end.

(** What the scanner reports of a device: [device.address], [device.name]
    and [adv_data.service_uuids]. *)
Record Discovered : Type := mkDiscovered {
  device_address : string;
  device_name : option string;
  service_uuids : list string
}.

(** [x in l] on a list of strings. *)
Definition string_in (x : string) (l : list string) : bool :=
  existsb (String.eqb x) l.

(** The body of the loop of [scan_for_bulbs] (lines 73-78): what one device
    appends to [found_bulbs]. *)
Definition found_bulb (d : Discovered) : list dict :=
  if string_in (lower HUE_SERVICE_UUID) (map lower (service_uuids d)) then
    [[("address", PStr (device_address d));
      ("name", PStr match device_name d with
                    | Some n => if (n =? "")%string then "Unknown Hue Bulb" else n
                    | None => "Unknown Hue Bulb"
                    end)]]
  else
    match device_name d with
    | Some n =>
        if negb (n =? "")%string && contains "Hue" n then
          [[("address", PStr (device_address d)); ("name", PStr n)]]
        else []
    | None => []
    end.

(** [scan_for_bulbs], from the devices [BleakScanner.discover] returned, in
    their order.  (The progress line it prints first is left out.) *)
Fixpoint scan_for_bulbs (devices : list Discovered) : list dict :=
  match devices with
  | [] => []
  | d :: devices' => found_bulb d ++ scan_for_bulbs devices'
  end.

(* ================================================================== *)
(** ** hue_ble.py: the HueBulb wrapper *)

Module HueBulb.

Record t : Type := mk {
  address : pyval;
  _conn : option HueBulbConnection
}.

Definition St : Type := (t * World)%type.

(** [HueBulb(address)]. *)
Definition new (addr : pyval) : t := mk addr None.

Definition set_conn (c : option HueBulbConnection) : M St unit :=
  modify (fun st => (mk (address (fst st)) c, snd st)).

(** A method call on [self._conn]. *)
Definition on_conn {A} (m : M ConnSt A) : M St A :=
  fun st =>
    match _conn (fst st) with
    | Some c =>
        let '(r, (c', w'), t) := m (c, snd st) in
        (r, (mk (address (fst st)) (Some c'), w'), t)
    | None =>
        (Raised (PyException "'NoneType' object has no attribute"), st, [])
    end.

Section Methods.

Variable env : Env.

Definition connect (timeout : float) : M St bool :=
  st <- get ;;
  set_conn (Some (new_connection (address (fst st)))) ;;
  on_conn (connect env timeout).

Definition disconnect : M St unit :=
  st <- get ;;
  match _conn (fst st) with
  | Some _ => on_conn (disconnect env) ;; set_conn None
  | None => ret tt
  end.

Definition turn_on : M St bool :=
  st <- get ;;
  match _conn (fst st) with
  | Some _ => on_conn (turn_on env)
  | None => ret false
  end.

Definition turn_off : M St bool :=
  st <- get ;;
  match _conn (fst st) with
  | Some _ => on_conn (turn_off env)
  | None => ret false
  end.

Definition set_brightness (percent : pyval) : M St bool :=
  st <- get ;;
  match _conn (fst st) with
  | Some _ => on_conn (set_brightness env percent)
  | None => ret false
  end.

Definition get_state : M St (option dict) :=
  st <- get ;;
  match _conn (fst st) with
  | Some _ => on_conn (get_state env)
  | None => ret None
  end.

(** [__aenter__]: the result of [connect] is dropped. *)
Definition __aenter__ : M St unit := connect 30%float ;; ret tt.

Definition __aexit__ : M St unit := disconnect.

(** [async with HueBulb(address) as bulb: body].  The bulb lives for the
    block; [__aexit__] runs however the body ends, and an exception of its
    own replaces the body's. *)
Definition async_with {A} (addr : pyval) (body : M St A) : M World A :=
  fun w =>
    let '(r, st, t) := (__aenter__ ;; try_finally body __aexit__) (new addr, w) in
    (r, snd st, t).

End Methods.

End HueBulb.

(* ================================================================== *)
(** ** The clients of the daemon *)

(** The first response a session wrote: the one line the client reads. *)
Fixpoint first_response (t : list event) : option dict :=
  match t with
  | [] => None
  | SockWrite response :: _ => Some response
  | _ :: t' => first_response t'
  end.

(** [self.server] is accepting connections. *)
Definition listening (d : HueDaemon) : bool :=
  match server d with
  | Some s => serving s
  | None => false
  end.

(** How the loopback connection fares, which the code bounds with
    [asyncio.wait_for]: in time, too slow to open (2 s), or too slow to
    answer (30 s). *)
Inductive Net : Type :=
| NetOk
| NetOpenTimeout
| NetReplyTimeout.

(** The exceptions a client tells apart. *)
Inductive client_error : Type :=
| ClientTimeout                   (* asyncio.TimeoutError *)
| ClientRefused                   (* ConnectionRefusedError *)
| ClientException (msg : string). (* any other Exception, with its str(e) *)

(** [json.loads] of an empty line. *)
Definition json_empty : string := "Expecting value: line 1 column 1 (char 0)".

Section Clients.

Variable env : Env.
Variable net : Net.

(** One session of the daemon, as its client sees it: the request line
    goes in, and the first line written, if any, comes back.  (A [dict] of
    [pyval] survives [json.dumps] and [json.loads] unchanged.) *)
Definition session (reader : incoming) : M DaemonSt (option dict) :=
  fun st =>
    let '(r, st', t) := handle_client env reader st in
    (outcome_map (fun _ => first_response t) r, st', t).

(** The [try] block shared by [send_command] (daemon.py, lines 172-183) and
    [send_to_daemon] (api/main.py, lines 22-33).  The daemon's session is run
    to its end here; what the daemon does after flushing its reply (the
    teardown of [shutdown]) runs beside the client in reality, so the place
    of those events among the client's own says nothing about their order. *)
Definition exchange (cmd : dict) : M DaemonSt (client_error + dict) :=
  st <- get ;;
  if negb (listening (fst st)) then ret (inl ClientRefused)
  else
    match net with
    | NetOpenTimeout => ret (inl ClientTimeout)
    | NetReplyTimeout => session (ReadRequest cmd) ;; ret (inl ClientTimeout)
    | NetOk =>
        data <- session (ReadRequest cmd) ;;
        match data with
        | Some response => ret (inr response)
        | None => ret (inl (ClientException json_empty))
        end
    end.

(** daemon.py: [send_command]. *)
Definition send_command (cmd : dict) : M DaemonSt dict :=
  r <- exchange cmd ;;
  match r with
  | inr response => ret response
  | inl ClientTimeout => ret [("ok", PBool false); ("error", PStr "Timeout")]
  | inl ClientRefused => ret [("ok", PBool false); ("error", PStr "Daemon not running")]
  | inl (ClientException msg) => ret [("ok", PBool false); ("error", PStr msg)]
  end.

(** daemon.py: [is_daemon_running].  The probe connects and hangs up: for a
    listening daemon that is a session with an empty read. *)
Definition is_daemon_running : M DaemonSt bool :=
  st <- get ;;
  if listening (fst st) then session ReadEof ;; ret true
  else ret false.

(** daemon.py: [main], on [sys.argv].  [start] is followed up to the accept
    loop; the daemon it creates takes the place of the one in the state. *)
Definition main (argv : list string) : M DaemonSt unit :=
  match argv with
  | [] | [_] => print "Usage: python daemon.py [start|stop|status]"
  | _ :: cmd :: _ =>
      if (cmd =? "start")%string then
        running <- is_daemon_running ;;
        if running then print "Daemon already running"
        else
          modify (fun st => (new_daemon, snd st)) ;;
          start env
      else if (cmd =? "stop")%string then
        result <- send_command [("cmd", PStr "shutdown")] ;;
        if truthy (dict_get "ok" result) then print "Daemon stopped"
        else
          print ("Error: " ++ py_str (dict_get_default "error" result (PStr "Unknown")))%string
      else if (cmd =? "status")%string then
        running <- is_daemon_running ;;
        if running then
          result <- send_command [("cmd", PStr "ping")] ;;
          if truthy (dict_get "connected" result)
          then print "Daemon running, bulb connected"
          else print "Daemon running, bulb not connected"
        else print "Daemon not running"
      else print ("Unknown command: " ++ cmd)%string
  end.

End Clients.

(* ================================================================== *)
(** ** api/main.py *)

Module Api.

(** What an endpoint gives: a body, or a raised [HTTPException]. *)
Inductive http (A : Type) : Type :=
| Http200 (body : A)
| HTTPException (status_code : Z) (detail : pyval).
Arguments Http200 {A} body.
Arguments HTTPException {A} status_code detail.

(** Sequencing in an endpoint: a raised [HTTPException] ends it. *)
Definition and_then {A B} (m : M DaemonSt (http A)) (k : A -> M DaemonSt (http B))
  : M DaemonSt (http B) :=
  bind m (fun r =>
            match r with
            | Http200 a => k a
            | HTTPException s d => ret (HTTPException s d)
            end).

Notation "x <-! m ;; k" := (and_then m (fun x => k))
  (at level 61, m at next level, right associativity) : py_scope.

Section Endpoints.

Variable env : Env.
Variable net : Net.

Definition send_to_daemon (cmd : dict) : M DaemonSt (http dict) :=
  r <- exchange env net cmd ;;
  match r with
  | inr response => ret (Http200 response)
  | inl ClientTimeout => ret (HTTPException 504 (PStr "Daemon timeout"))
  | inl ClientRefused => ret (HTTPException 503 (PStr "Daemon not running"))
  | inl (ClientException msg) => ret (HTTPException 500 (PStr msg))
  end.

(** The opening shared by [turn_on], [turn_off], [toggle] and
    [set_brightness]: ping, and connect when the ping does not report a
    connection. *)
Definition ensure_connected : M DaemonSt (http unit) :=
  ping <-! send_to_daemon [("cmd", PStr "ping")] ;;
  if negb (truthy (dict_get "connected" ping)) then
    connect <-! send_to_daemon [("cmd", PStr "connect")] ;;
    if negb (truthy (dict_get "ok" connect)) then
      ret (HTTPException 503 (PStr "Failed to connect to bulb"))
    else ret (Http200 tt)
  else ret (Http200 tt).

(** [StatusResponse(...)], with every field of the model. *)
Definition StatusResponse (ok power brightness connected error : pyval) : dict :=
  [("ok", ok); ("power", power); ("brightness", brightness);
   ("connected", connected); ("error", error)].

Definition get_status : M DaemonSt (http dict) :=
  ping <-! send_to_daemon [("cmd", PStr "ping")] ;;
  _ <-! (if negb (truthy (dict_get "connected" ping)) then
           _ <-! send_to_daemon [("cmd", PStr "connect")] ;; ret (Http200 tt)
         else ret (Http200 tt)) ;;
  result <-! send_to_daemon [("cmd", PStr "status")] ;;
  ret (Http200 (StatusResponse
                  (dict_get_default "ok" result (PBool false))
                  (dict_get "power" result)
                  (dict_get "brightness" result)
                  (dict_get_default "ok" result (PBool false))
                  (dict_get "error" result))).

Definition turn_on : M DaemonSt (http dict) :=
  _ <-! ensure_connected ;;
  result <-! send_to_daemon [("cmd", PStr "on")] ;;
  if negb (truthy (dict_get "ok" result)) then
    ret (HTTPException 500 (dict_get_default "error" result (PStr "Failed")))
  else ret (Http200 [("ok", PBool true)]).

Definition turn_off : M DaemonSt (http dict) :=
  _ <-! ensure_connected ;;
  result <-! send_to_daemon [("cmd", PStr "off")] ;;
  if negb (truthy (dict_get "ok" result)) then
    ret (HTTPException 500 (dict_get_default "error" result (PStr "Failed")))
  else ret (Http200 [("ok", PBool true)]).

Definition toggle : M DaemonSt (http dict) :=
  _ <-! ensure_connected ;;
  status <-! send_to_daemon [("cmd", PStr "status")] ;;
  if negb (truthy (dict_get "ok" status)) then
    ret (HTTPException 500 (PStr "Failed to get status"))
  else
    result <-! (if py_eqb (dict_get "power" status) (PStr "on")
                then send_to_daemon [("cmd", PStr "off")]
                else send_to_daemon [("cmd", PStr "on")]) ;;
    if negb (truthy (dict_get "ok" result)) then
      ret (HTTPException 500 (dict_get_default "error" result (PStr "Failed")))
    else
      ret (Http200 [("ok", PBool true);
                    ("power", PStr (if py_eqb (dict_get "power" status) (PStr "on")
                                    then "off" else "on"))]).

(** [set_brightness(req)], [req.level] being the int pydantic has parsed. *)
Definition set_brightness (level : Z) : M DaemonSt (http dict) :=
  if (level <? 1) || (100 <? level) then
    ret (HTTPException 400 (PStr "Brightness must be 1-100"))
  else
    _ <-! ensure_connected ;;
    result <-! send_to_daemon [("cmd", PStr "brightness"); ("level", PInt level)] ;;
    if negb (truthy (dict_get "ok" result)) then
      ret (HTTPException 500 (dict_get_default "error" result (PStr "Failed")))
    else ret (Http200 [("ok", PBool true); ("brightness", PInt level)]).

End Endpoints.

End Api.

(* ================================================================== *)
(** ** cli.py *)

Module Cli.

(** The parsed arguments the commands read. *)
Record Args : Type := mkArgs {
  address : option string;     (* --address *)
  level : Z                    (* brightness <level> *)
}.

(** Run on the files, beside a daemon that is left alone. *)
Definition on_world {A} (m : M World A) : M DaemonSt A :=
  fun st => let '(r, w', t) := m (snd st) in (r, (fst st, w'), t).

Section Commands.

Variable env : Env.
Variable net : Net.

Definition try_daemon_command (cmd : dict) : M DaemonSt (option dict) :=
  running <- is_daemon_running env ;;
  if running then
    result <- send_command env net cmd ;;
    ret (Some result)
  else ret None.

(** [result and result.get("ok")]. *)
Definition result_ok (result : option dict) : bool :=
  match result with
  | Some ((_ :: _) as r) => truthy (dict_get "ok" r)
  | _ => false
  end.

Definition get_address (args : Args) : M DaemonSt pyval :=
  let from_config : M DaemonSt pyval :=
    st <- get ;;
    if dict_mem "last_address" (config_file (snd st))
    then ret (dict_get "last_address" (config_file (snd st)))
    else print "No bulb address. Run 'python cli.py scan' first." ;; ret PNone in
  match address args with
  | Some a => if negb (a =? "")%string then ret (PStr a) else from_config
  | None => from_config
  end.

Definition cmd_on (args : Args) : M DaemonSt Z :=
  address <- get_address args ;;
  if negb (truthy address) then ret 1
  else
    result <- try_daemon_command [("cmd", PStr "connect"); ("address", address)] ;;
    via_daemon <-
      (if result_ok result then
         result <- try_daemon_command [("cmd", PStr "on")] ;;
         if result_ok result then
           print "Bulb turned ON (via daemon)" ;; ret true
         else ret false
       else ret false) ;;
    if via_daemon then ret 0
    else
      print ("Connecting to " ++ py_str address ++ "...")%string ;;
      on_world
        (HueBulb.async_with env address
           (ok <- HueBulb.turn_on env ;;
            if ok then print "Bulb turned ON" ;; ret 0
            else print "Failed to turn on bulb" ;; ret 1)).

Definition cmd_off (args : Args) : M DaemonSt Z :=
  address <- get_address args ;;
  if negb (truthy address) then ret 1
  else
    result <- try_daemon_command [("cmd", PStr "connect"); ("address", address)] ;;
    via_daemon <-
      (if result_ok result then
         result <- try_daemon_command [("cmd", PStr "off")] ;;
         if result_ok result then
           print "Bulb turned OFF (via daemon)" ;; ret true
         else ret false
       else ret false) ;;
    if via_daemon then ret 0
    else
      print ("Connecting to " ++ py_str address ++ "...")%string ;;
      on_world
        (HueBulb.async_with env address
           (ok <- HueBulb.turn_off env ;;
            if ok then print "Bulb turned OFF" ;; ret 0
            else print "Failed to turn off bulb" ;; ret 1)).

Definition cmd_brightness (args : Args) : M DaemonSt Z :=
  address <- get_address args ;;
  if negb (truthy address) then ret 1
  else
    let level := level args in
    if (level <? 1) || (100 <? level) then
      print "Brightness must be between 1 and 100" ;; ret 1
    else
      result <- try_daemon_command [("cmd", PStr "connect"); ("address", address)] ;;
      via_daemon <-
        (if result_ok result then
           result <- try_daemon_command [("cmd", PStr "brightness"); ("level", PInt level)] ;;
           if result_ok result then
             print ("Brightness set to " ++ py_str (PInt level) ++ "% (via daemon)")%string ;;
             ret true
           else ret false
         else ret false) ;;
      if via_daemon then ret 0
      else
        print ("Connecting to " ++ py_str address ++ "...")%string ;;
        on_world
          (HueBulb.async_with env address
             (ok <- HueBulb.set_brightness env (PInt level) ;;
              if ok then
                print ("Brightness set to " ++ py_str (PInt level) ++ "%")%string ;; ret 0
              else print "Failed to set brightness" ;; ret 1)).

End Commands.

End Cli.

(* ================================================================== *)
(** ** daemon.py: start, with the steps that can fail before the auto-connect *)

(** What binding the port ([asyncio.start_server], lines 131-135) and
    writing the pid file ([PID_FILE.write_text], line 138) answer. *)
Record Boot : Type := mkBoot {
  boot_bind : outcome unit;
  boot_pid_write : outcome unit
}.

Section Booting.

Variable env : Env.
Variable boot : Boot.

(** [start], up to the accept loop, the two steps raising what they are told
    to.  [self.server] is assigned only when the bind has returned; the pid
    file exists only when the write has. *)
Definition start_booting : M DaemonSt unit :=
  emit ServerStart ;;
  of_outcome (boot_bind boot) ;;
  set_server (Some (mkServer true)) ;;
  emit PidWrite ;;
  of_outcome (boot_pid_write boot) ;;
  set_pid_file true ;;
  print "Hue daemon listening on port 19847" ;;
  st <- get ;;
  let config := config_file (snd st) in
  if dict_mem "last_address" config then
    let address := dict_get "last_address" config in
    print ("Auto-connecting to " ++ py_str address ++ "...")%string ;;
    set_connection (Some (new_connection address)) ;;
    connected <- on_connection (connect env 30%float) ;;
    if connected then print "Connected!"
    else
      print "Auto-connect failed. Use CLI to connect manually." ;;
      set_connection None
  else ret tt.

End Booting.

(* ================================================================== *)
(** * Properties *)

(** ** Finite checks *)

Lemma outcome_Z_eqb_eq (a b : outcome Z) : outcome_Z_eqb a b = true -> a = b.
Proof.
  destruct a as [x|e], b as [y|e']; simpl; try discriminate.
  intros H. apply Z.eqb_eq in H. now subst.
Qed.

Lemma In_range (lo z : Z) (n : nat) :
  lo <= z < lo + Z.of_nat n -> In z (range lo n).
Proof.
  intros Hz. unfold range. apply in_map_iff.
  exists (Z.to_nat (z - lo)). split.
  - lia.
  - apply in_seq. lia.
Qed.

Lemma forall_range (P : Z -> bool) (lo : Z) (n : nat) :
  forallb P (range lo n) = true ->
  forall z, lo <= z < lo + Z.of_nat n -> P z = true.
Proof.
  intros Hall z Hz. rewrite forallb_forall in Hall.
  apply Hall, In_range, Hz.
Qed.

(** ** Brightness arithmetic *)

(** On 1..100 the float computation of [set_brightness] is the integer
    quotient: no product [percent/100*253] falls on the wrong side of an
    integer. *)
Lemma brightness_value_quotient (percent : Z) :
  1 <= percent <= 100 ->
  brightness_value percent = Ok (percent * 253 / 100 + 1).
Proof.
  intros H. apply outcome_Z_eqb_eq.
  apply (forall_range
           (fun p => outcome_Z_eqb (brightness_value p) (Ok (p * 253 / 100 + 1)))
           1 100); [vm_compute; reflexivity | lia].
Qed.

Lemma brightness_percent_quotient (raw : byte) :
  brightness_percent (byte_value raw) =
  Ok (Z.max 1 (Z.min 100 (Z.quot ((byte_value raw - 1) * 100) 253))).
Proof. destruct raw; vm_compute; reflexivity. Qed.

Lemma bytes_of_value_byte (v : Z) :
  0 <= v < 256 -> exists b, bytes_of_value v = Ok [b] /\ byte_value b = v.
Proof.
  intros H. unfold bytes_of_value.
  replace ((0 <=? v) && (v <? 256)) with true by (symmetry; apply andb_true_iff; lia).
  destruct (Byte.of_N (Z.to_N v)) as [b|] eqn:E.
  - exists b. split; [reflexivity|]. unfold byte_value.
    apply Byte.to_of_N in E. rewrite E. lia.
  - exfalso. apply Byte.of_N_None_iff in E. lia.
Qed.

(** The wire value of a percent in range fits the byte that carries it. *)
Lemma brightness_value_byte (percent : Z) :
  1 <= percent <= 100 ->
  exists b, outcome_bind (brightness_value percent) bytes_of_value = Ok [b] /\
            byte_value b = percent * 253 / 100 + 1.
Proof.
  intros H. rewrite (brightness_value_quotient percent H). simpl.
  apply bytes_of_value_byte.
  assert (0 <= percent * 253 / 100 <= 253); [|lia].
  split; [apply Z.div_pos; lia|].
  apply Z.div_le_upper_bound; lia.
Qed.

(** C4. For every percent in 1..100, the wire value [set_brightness] writes,
    read back through [get_state]'s mapping, is within one of the percent,
    and is the percent itself at 1 and at 100. *)
Theorem brightness_round_trip (percent : Z) :
  1 <= percent <= 100 ->
  exists back,
    round_trip percent = Ok back /\
    percent - 1 <= back <= percent + 1 /\
    (percent = 1 -> back = 1) /\
    (percent = 100 -> back = 100).
Proof.
  intros H.
  assert (Hok : round_trip_ok percent = true).
  { apply (forall_range round_trip_ok 1 100); [vm_compute; reflexivity | lia]. }
  unfold round_trip_ok in Hok.
  destruct (round_trip percent) as [back|e]; [|discriminate].
  exists back. split; [reflexivity|].
  repeat (apply andb_true_iff in Hok; destruct Hok as [Hok ?]).
  repeat split; lia.
Qed.

Lemma brightness_round_trip_witness :
  exists back, round_trip 50 = Ok back /\ 50 - 1 <= back <= 50 + 1 /\
               (50 = 1 -> back = 1) /\ (50 = 100 -> back = 100).
Proof. apply (brightness_round_trip 50). lia. Defined.

(** C5, as the code has it: both directions truncate.  The wire value of a
    percent in 1..100 is the integer quotient [percent * 253 / 100] plus one,
    and the percent of a raw byte is [(raw - 1) * 100] over 253, truncated
    towards zero and clamped to 1..100. *)
Theorem brightness_mapping_truncates :
  (forall percent, 1 <= percent <= 100 ->
     brightness_value percent = Ok (percent * 253 / 100 + 1)) /\
  (forall raw : byte,
     brightness_percent (byte_value raw) =
     Ok (Z.max 1 (Z.min 100 (Z.quot ((byte_value raw - 1) * 100) 253)))).
Proof.
  split.
  - exact brightness_value_quotient.
  - exact brightness_percent_quotient.
Qed.

Lemma brightness_mapping_truncates_witness :
  brightness_value 3 = Ok 8 /\ brightness_percent (byte_value x05) = Ok 1.
Proof.
  split.
  - apply (proj1 brightness_mapping_truncates 3). lia.
  - apply (proj2 brightness_mapping_truncates x05).
Defined.

(** C5, as the specification words it, fails: at percent 3 the product is
    7.59, the code writes 8 and rounding to nearest asks for 9; the raw byte
    5 stands for 1.58 percent, the code reports 1 and rounding asks for 2. *)
Lemma brightness_not_rounded :
  brightness_value 3 = Ok 8 /\ spec_wire_value 3 = Ok 9 /\
  brightness_percent 5 = Ok 1 /\ spec_percent_from_wire 5 = Ok 2.
Proof. vm_compute. repeat split; reflexivity. Qed.

(* ================================================================== *)
(** ** Running the monad *)

Arguments brightness_value : simpl never.
Arguments brightness_percent : simpl never.
Arguments bytes_of_value : simpl never.
Arguments clamp_percent : simpl never.
Arguments String.append : simpl never.
Arguments contains : simpl never.

(** Unfold the combinators and the methods of [HueBulbConnection]. *)
Ltac run :=
  cbv [bind ret raise get modify emit try_except try_finally of_outcome print
       on_self with_lock client_call attribute_error
       write_gatt_char read_gatt_char client_connect client_pair client_disconnect
       _save_working_address
       turn_on turn_off set_brightness get_state connect disconnect];
  cbn.

(** The same for the daemon's session handling. *)
Ltac run_daemon :=
  cbv [writer_write writer_drain writer_close writer_wait_closed
       set_connection set_server set_pid_file on_connection stop
       handle_client];
  run.

(** An outcome is a value or one of the three exception classes. *)
Ltac case_outcome o :=
  let u := fresh "u" in
  let m := fresh "msg" in
  destruct o as [u | [m | m | m]].

Ltac case_unit_outcome o :=
  let m := fresh "msg" in
  destruct o as [[] | [m | m | m]].

(** Split a connection into the cases of its [is_connected] property. *)
Ltac case_connection self :=
  let a := fresh "addr" in
  let ca := fresh "caddr" in
  let ct := fresh "ctime" in
  destruct self as [a [[ca ct [|]]|] ? [|]].

(** ** Dictionaries *)


Lemma dict_get_default_set_same (k : string) (v default : pyval) (d : dict) :
  dict_get_default k (dict_set k v d) default = v.
Proof.
  induction d as [|[k0 v0] d IH]; simpl.
  - now rewrite String.eqb_refl.
  - destruct (String.eqb_spec k0 k) as [->|Hk0]; simpl.
    + now rewrite String.eqb_refl.
    + destruct (String.eqb_spec k0 k); [congruence | exact IH].
Qed.


(** A key that is present is found whatever the default. *)
Lemma dict_get_default_present (k : string) (v default : pyval) (d : dict) :
  v <> PNone -> dict_get k d = v -> dict_get_default k d default = v.
Proof.
  unfold dict_get. intros Hv.
  induction d as [|[k0 v0] d IH]; simpl; [congruence|].
  destruct (k0 =? k)%string; auto.
Qed.

(* ================================================================== *)
(** ** The lock (C1) *)

Lemma turn_on_lock_guarded (env : Env) (st : ConnSt) :
  lock_guarded false (events_of (turn_on env st)) = true.
Proof.
  destruct st as [self w]. case_connection self; try reflexivity.
  run.
  case_outcome (dev_write env POWER_CHAR_UUID [x01]); reflexivity.
Qed.

Lemma turn_off_lock_guarded (env : Env) (st : ConnSt) :
  lock_guarded false (events_of (turn_off env st)) = true.
Proof.
  destruct st as [self w]. case_connection self; try reflexivity.
  run.
  case_outcome (dev_write env POWER_CHAR_UUID [x00]); reflexivity.
Qed.

Lemma set_brightness_lock_guarded (env : Env) (percent : pyval) (st : ConnSt) :
  lock_guarded false (events_of (set_brightness env percent st)) = true.
Proof.
  destruct st as [self w]. case_connection self; try reflexivity.
  run.
  case_outcome (clamp_percent percent); [|reflexivity..]. run.
  case_outcome (brightness_value u); [|reflexivity..]. run.
  case_outcome (bytes_of_value u0); [|reflexivity..]. run.
  case_outcome (dev_write env BRIGHTNESS_CHAR_UUID u1); reflexivity.
Qed.

Lemma get_state_lock_guarded (env : Env) (st : ConnSt) :
  lock_guarded false (events_of (get_state env st)) = true.
Proof.
  destruct st as [self w]. case_connection self; try reflexivity.
  run.
  case_outcome (dev_read env POWER_CHAR_UUID); [|reflexivity..]. run.
  case_outcome (dev_read env BRIGHTNESS_CHAR_UUID); [|reflexivity..]. run.
  match goal with
  | |- context [brightness_percent ?r] => case_outcome (brightness_percent r)
  end; reflexivity.
Qed.

(** Sessions that each keep the lock discipline never touch the wire
    outside their own critical section, however they are scheduled. *)
Lemma guarded_sessions_exclusive (s : schedule) :
  forall owner,
    lock_respected owner s = true ->
    (forall i, lock_guarded (owner_is i owner) (session_events i s) = true) ->
    wire_exclusive owner s = true.
Proof.
  induction s as [|[i ev] s IH]; intros owner Hlock Hall; [reflexivity|].
  assert (Hi := Hall i).
  unfold session_events in Hi. simpl in Hi. rewrite Nat.eqb_refl in Hi.
  simpl in Hi. fold (session_events i s) in Hi.
  assert (Hother : forall j, j <> i ->
            session_events j ((i, ev) :: s) = session_events j s).
  { intros j Hj. unfold session_events. simpl.
    destruct (Nat.eqb_spec i j); [congruence | reflexivity]. }
  assert (Hstep : forall owner',
            lock_respected owner' s = true ->
            lock_guarded (owner_is i owner') (session_events i s) = true ->
            (forall j, j <> i -> owner_is j owner' = owner_is j owner) ->
            wire_exclusive owner' s = true).
  { intros owner' Hl Hg Hsame. apply IH; [exact Hl|].
    intros j. destruct (Nat.eq_dec j i) as [->|Hj]; [exact Hg|].
    rewrite (Hsame j Hj), <- (Hother j Hj). apply Hall. }
  destruct ev; simpl in *;
    try (apply Hstep; [exact Hlock | exact Hi | reflexivity]);
    try (apply andb_true_iff in Hi; destruct Hi as [Hown Hi]; rewrite Hown;
         apply Hstep; [exact Hlock | exact Hi | reflexivity]).
  - (* LockAcquire *)
    destruct owner as [k|]; [discriminate|].
    apply Hstep; [exact Hlock | simpl; rewrite Nat.eqb_refl; exact Hi |].
    intros j Hj. simpl. now apply Nat.eqb_neq.
  - (* LockRelease *)
    apply andb_true_iff in Hi. destruct Hi as [Hown Hi].
    apply Hstep; [exact Hlock | exact Hi |].
    intros j Hj. destruct owner as [k|]; [|reflexivity]. simpl in *.
    apply Nat.eqb_eq in Hown. subst k. symmetry. now apply Nat.eqb_neq.
Qed.

(** Session 0 reads the state while session 1 turns the bulb on: the lock
    forces one after the other. *)
Example status_and_on_scheduled :
  let s := map (pair 0%nat) (events_of (get_state good_env (live_connection, empty_world)))
           ++ map (pair 1%nat) (events_of (turn_on good_env (live_connection, empty_world))) in
  lock_respected None s = true /\ wire_exclusive None s = true.
Proof.
  intros s. split; [reflexivity|].
  apply guarded_sessions_exclusive; [reflexivity|].
  intros [|[|i]]; reflexivity.
Qed.

(** Session 1 connects while session 0 is inside [get_state]: the lock is
    respected, it is never asked for, and the connect lands between the two
    reads. *)
Example connect_inside_status :
  let s := [(0%nat, LockAcquire); (0%nat, BleRead POWER_CHAR_UUID);
            (1%nat, BleConnect (PStr "AA:BB"));
            (0%nat, BleRead BRIGHTNESS_CHAR_UUID); (0%nat, LockRelease);
            (1%nat, BleRead POWER_CHAR_UUID);
            (1%nat, ConfigSave [("last_address", PStr "AA:BB")])] in
  session_events 0 s =
    events_of (get_state good_env (live_connection, empty_world)) /\
  session_events 1 s =
    events_of (connect good_env 30%float (new_connection (PStr "AA:BB"), empty_world)) /\
  lock_respected None s = true /\ wire_exclusive None s = false.
Proof. vm_compute. repeat split; reflexivity. Qed.

(** On a live link the guarded sequences are not empty. *)
Example get_state_live_events :
  get_state good_env (live_connection, empty_world) =
  (Ok (Some [("power", PStr "on"); ("brightness", PInt 49)]),
   (live_connection, empty_world),
   [LockAcquire; BleRead POWER_CHAR_UUID; BleRead BRIGHTNESS_CHAR_UUID; LockRelease]).
Proof. vm_compute. reflexivity. Qed.

(** C1, as the code has it: [turn_on], [turn_off], [set_brightness] and
    [get_state] take the lock before their wire operation and release it
    after it, on every path.  ([connect] and [disconnect] are not among
    them.) *)
Theorem commands_hold_the_lock (env : Env) (percent : pyval) (st : ConnSt) :
  lock_guarded false (events_of (turn_on env st)) = true /\
  lock_guarded false (events_of (turn_off env st)) = true /\
  lock_guarded false (events_of (set_brightness env percent st)) = true /\
  lock_guarded false (events_of (get_state env st)) = true.
Proof.
  repeat split.
  - apply turn_on_lock_guarded.
  - apply turn_off_lock_guarded.
  - apply set_brightness_lock_guarded.
  - apply get_state_lock_guarded.
Qed.

(** C1 as stated fails: [connect] and [disconnect] go over the wire without
    ever taking the lock. *)
Lemma connect_and_disconnect_take_no_lock :
  events_of (connect good_env 30%float (new_connection (PStr "AA:BB"), empty_world)) =
    [BleConnect (PStr "AA:BB"); BleRead POWER_CHAR_UUID;
     ConfigSave [("last_address", PStr "AA:BB")]] /\
  lock_guarded false
    (events_of (connect good_env 30%float (new_connection (PStr "AA:BB"), empty_world)))
    = false /\
  events_of (disconnect good_env (live_connection, empty_world)) = [BleDisconnect] /\
  lock_guarded false (events_of (disconnect good_env (live_connection, empty_world)))
    = false.
Proof. vm_compute. repeat split; reflexivity. Qed.

(* ================================================================== *)
(** ** disconnect (C7) *)

(** The paths of [disconnect] that reach its two assignments: it is safe
    when there is no live client, and whenever the transport's disconnect
    does not fail it returns normally with the client reference and the
    connected flag cleared; a second call then changes nothing and touches
    no wire. *)
Theorem disconnect_clears_state (env : Env) (st : ConnSt) :
  client_up (fst st) = false \/ dev_disconnect env = Ok tt ->
  result_of (disconnect env st) = Ok tt /\
  _client (fst (state_of (disconnect env st))) = None /\
  _connected (fst (state_of (disconnect env st))) = false /\
  disconnect env (state_of (disconnect env st)) =
    (Ok tt, state_of (disconnect env st), []).
Proof.
  destruct st as [self w]. destruct self as [a [[ca ct [|]]|] ev cn]; cbn.
  - intros [H|H]; [discriminate|]. run. rewrite H. cbn. auto.
  - intros _. cbn. auto.
  - intros _. cbn. auto.
Qed.

Lemma disconnect_clears_state_witness :
  result_of (disconnect good_env (live_connection, empty_world)) = Ok tt /\
  _client (fst (state_of (disconnect good_env (live_connection, empty_world)))) = None /\
  _connected (fst (state_of (disconnect good_env (live_connection, empty_world)))) = false /\
  disconnect good_env (state_of (disconnect good_env (live_connection, empty_world))) =
    (Ok tt, state_of (disconnect good_env (live_connection, empty_world)), []).
Proof.
  apply (disconnect_clears_state good_env (live_connection, empty_world)).
  right. reflexivity.
Defined.

(** The path that does not: whenever the transport's disconnect raises on a
    live client, the exception leaves [disconnect] past its two assignments.
    The disconnect event is set, the client reference and the connected flag
    are what they were. *)
Lemma disconnect_failure_skips_clearing (env : Env) (st : ConnSt) (e : exn) :
  client_up (fst st) = true ->
  dev_disconnect env = Raised e ->
  disconnect env st =
    (Raised e, (set_disconnect_event true (fst st), snd st), [BleDisconnect]).
Proof.
  destruct st as [self w]. destruct self as [a [[ca ct [|]]|] ev cn]; cbn;
    try discriminate.
  intros _ H. run. rewrite H. reflexivity.
Qed.

(** C7 at the failing input: a connected link whose transport disconnect
    raises.  [disconnect] raises in its turn, and the local state is not
    cleared: the client reference is still there and the connected flag is
    still true. *)
Lemma failed_disconnect_keeps_state :
  disconnect stuck_env (live_connection, empty_world) =
  (Raised (BleakError "Not connected"),
   (set_disconnect_event true live_connection, empty_world),
   [BleDisconnect]) /\
  _client (set_disconnect_event true live_connection) <> None /\
  _connected (set_disconnect_event true live_connection) = true.
Proof. vm_compute. repeat split; try reflexivity. discriminate. Qed.

(** What follows from it at [shutdown]: the client is told
    [{ok: true, ...}], [stop] is cut short by the exception, and the daemon
    goes on serving with its pid file in place. *)
Example shutdown_with_stuck_link :
  handle_client stuck_env (ReadRequest [("cmd", PStr "shutdown")])
    (live_daemon, mkWorld [] true) =
  (Ok tt,
   (mkHueDaemon (Some (set_disconnect_event true live_connection))
      (Some (mkServer true)),
    mkWorld [] true),
   [SockWrite shutting_down; SockDrain; SockClose; BleDisconnect;
    SockWrite [("ok", PBool false); ("error", PStr "Not connected")]; SockDrain;
    SockClose; SockWaitClosed]).
Proof. vm_compute. reflexivity. Qed.

(* ================================================================== *)
(** ** connect (C8) *)

Ltac split_run :=
  repeat (run;
          match goal with
          | |- context [match ?o with Ok _ => _ | Raised _ => _ end] => case_outcome o
          | |- context [if ?b then _ else _] => destruct b eqn:?
          end);
  run.

Lemma connect_never_raises (env : Env) (timeout : float) (st : ConnSt) :
  exists b, result_of (connect env timeout st) = Ok b.
Proof.
  destruct st as [self w]. case_connection self;
    try (eexists; reflexivity); split_run; eexists; reflexivity.
Qed.

Lemma connect_refused (env : Env) (timeout : float) (st : ConnSt) (e : exn) :
  is_connected (fst st) = false ->
  dev_connect env = Raised e ->
  result_of (connect env timeout st) = Ok false.
Proof.
  destruct st as [self w]. intros Hc He.
  run. cbn in Hc. rewrite Hc. run. rewrite He. destruct e; reflexivity.
Qed.

Lemma connect_link_down (env : Env) (timeout : float) (st : ConnSt) :
  is_connected (fst st) = false ->
  dev_connect env = Ok tt -> dev_link_up env = false ->
  result_of (connect env timeout st) = Ok false.
Proof.
  destruct st as [self w]. intros Hc He Hl.
  run. cbn in Hc. rewrite Hc. run. rewrite He. run.
  unfold set_client_is_connected, client_up. cbn. rewrite Hl. reflexivity.
Qed.

Lemma connect_read_fails (env : Env) (timeout : float) (st : ConnSt) (e : exn) :
  is_connected (fst st) = false ->
  dev_connect env = Ok tt ->
  dev_read env POWER_CHAR_UUID = Raised e ->
  (forall msg, e <> BleakError msg) ->
  result_of (connect env timeout st) = Ok false.
Proof.
  destruct st as [self w]. intros Hc He Hr Hne.
  run. cbn in Hc. rewrite Hc. run. rewrite He. run.
  unfold set_client_is_connected, client_up. cbn.
  destruct (dev_link_up env); [|reflexivity]. run.
  rewrite Hr. destruct e; try reflexivity. now destruct (Hne msg).
Qed.

(** The wire operations of a run, in order. *)
Lemma connect_pairs_once
    (env : Env) (timeout : float) (st : ConnSt) (msg : string) :
  is_connected (fst st) = false ->
  dev_connect env = Ok tt -> dev_link_up env = true ->
  dev_read env POWER_CHAR_UUID = Raised (BleakError msg) ->
  contains "Insufficient Encryption" msg || contains "0x0F" msg = true ->
  filter is_wire (events_of (connect env timeout st)) =
    [BleConnect (address (fst st)); BleRead POWER_CHAR_UUID; BlePair] /\
  (dev_pair env = Ok tt -> fs_save_config env = Ok tt ->
   result_of (connect env timeout st) = Ok true) /\
  (forall e, dev_pair env = Raised e ->
   result_of (connect env timeout st) = Ok false).
Proof.
  destruct st as [self w]. intros Hc He Hl Hr Hm.
  run. cbn in Hc. rewrite Hc. run. rewrite He. run.
  unfold set_client_is_connected, client_up. cbn. rewrite Hl. run.
  rewrite Hr. run. rewrite Hm. run.
  case_unit_outcome (dev_pair env); run.
  - case_unit_outcome (fs_save_config env); run;
      (split; [reflexivity|]); split; intros; try discriminate; reflexivity.
  - (split; [reflexivity|]); split; intros; try discriminate; reflexivity.
  - (split; [reflexivity|]); split; intros; try discriminate; reflexivity.
  - (split; [reflexivity|]); split; intros; try discriminate; reflexivity.
Qed.

Lemma connect_ignores_other_bleak_errors
    (env : Env) (timeout : float) (st : ConnSt) (msg : string) :
  is_connected (fst st) = false ->
  dev_connect env = Ok tt -> dev_link_up env = true ->
  dev_read env POWER_CHAR_UUID = Raised (BleakError msg) ->
  contains "Insufficient Encryption" msg || contains "0x0F" msg = false ->
  filter is_wire (events_of (connect env timeout st)) =
    [BleConnect (address (fst st)); BleRead POWER_CHAR_UUID] /\
  (fs_save_config env = Ok tt ->
   result_of (connect env timeout st) = Ok true).
Proof.
  destruct st as [self w]. intros Hc He Hl Hr Hm.
  run. cbn in Hc. rewrite Hc. run. rewrite He. run.
  unfold set_client_is_connected, client_up. cbn. rewrite Hl. run.
  rewrite Hr. run. rewrite Hm. run.
  case_unit_outcome (fs_save_config env); run;
    (split; [reflexivity|]); intros; try discriminate; reflexivity.
Qed.

(** No run of [connect] pairs more than once. *)
Lemma connect_pairs_at_most_once (env : Env) (timeout : float) (st : ConnSt) :
  (List.length
     (filter (fun ev => match ev with BlePair => true | _ => false end)
        (events_of (connect env timeout st))) <= 1)%nat.
Proof.
  destruct st as [self w]. destruct env as [dc lu dr dw dp dd fs pd].
  case_connection self; try (cbn; lia);
    run; case_unit_outcome dc; run; try (cbn; lia);
    unfold set_client_is_connected, client_up; cbn;
    destruct lu; run; try (cbn; lia);
    (case_outcome (dr POWER_CHAR_UUID); run;
     [| | match goal with
          | |- context [contains ?a ?m || contains ?b ?m] =>
              destruct (contains a m || contains b m)
          end; run; try case_unit_outcome dp; run |];
     try case_unit_outcome fs; run; cbn; lia).
Qed.

(** C8, as the code has it: [connect] never raises, its outcome is always a
    boolean.  When not already connected it returns false on a timeout or
    any other error of the connection attempt, when the transport reports
    the link down after it, and on any error of the first privileged read
    that is not a [BleakError].  A [BleakError] of that read does not fail
    the connect.  When its text reports missing encryption, pairing is
    attempted, once: the wire operations are the connect, the read and one
    pairing, and [connect] returns true when the pairing and the saving of
    the address succeed, false when the pairing raises.  Any other
    [BleakError] is ignored: there is no pairing, and [connect] returns true
    when the saving succeeds.  No run pairs more than once. *)
Theorem connect_outcomes (env : Env) (timeout : float) (st : ConnSt) :
  (exists b, result_of (connect env timeout st) = Ok b) /\
  (List.length
     (filter (fun ev => match ev with BlePair => true | _ => false end)
        (events_of (connect env timeout st))) <= 1)%nat /\
  (is_connected (fst st) = false ->
   (forall e, dev_connect env = Raised e ->
      result_of (connect env timeout st) = Ok false) /\
   (dev_connect env = Ok tt -> dev_link_up env = false ->
      result_of (connect env timeout st) = Ok false) /\
   (forall e, dev_connect env = Ok tt ->
      dev_read env POWER_CHAR_UUID = Raised e ->
      (forall msg, e <> BleakError msg) ->
      result_of (connect env timeout st) = Ok false) /\
   (forall msg, dev_connect env = Ok tt -> dev_link_up env = true ->
      dev_read env POWER_CHAR_UUID = Raised (BleakError msg) ->
      contains "Insufficient Encryption" msg || contains "0x0F" msg = true ->
      filter is_wire (events_of (connect env timeout st)) =
        [BleConnect (address (fst st)); BleRead POWER_CHAR_UUID; BlePair] /\
      (dev_pair env = Ok tt -> fs_save_config env = Ok tt ->
       result_of (connect env timeout st) = Ok true) /\
      (forall e, dev_pair env = Raised e ->
       result_of (connect env timeout st) = Ok false)) /\
   (forall msg, dev_connect env = Ok tt -> dev_link_up env = true ->
      dev_read env POWER_CHAR_UUID = Raised (BleakError msg) ->
      contains "Insufficient Encryption" msg || contains "0x0F" msg = false ->
      filter is_wire (events_of (connect env timeout st)) =
        [BleConnect (address (fst st)); BleRead POWER_CHAR_UUID] /\
      (fs_save_config env = Ok tt ->
       result_of (connect env timeout st) = Ok true))).
Proof.
  split; [apply connect_never_raises|].
  split; [apply connect_pairs_at_most_once|].
  intros Hc. split; [|split; [|split; [|split]]].
  - intros e. now apply connect_refused.
  - now apply connect_link_down.
  - intros e. now apply connect_read_fails.
  - intros msg. now apply connect_pairs_once.
  - intros msg. now apply connect_ignores_other_bleak_errors.
Qed.

(** A peripheral that asks for pairing: one pairing attempt, and only one. *)
Lemma connect_outcomes_witness :
  filter is_wire
    (events_of (connect pairing_env 30%float (new_connection (PStr "AA:BB"), empty_world))) =
    [BleConnect (PStr "AA:BB"); BleRead POWER_CHAR_UUID; BlePair] /\
  result_of (connect pairing_env 30%float (new_connection (PStr "AA:BB"), empty_world))
    = Ok true /\
  result_of (connect absent_env 30%float (new_connection (PStr "AA:BB"), empty_world))
    = Ok false.
Proof.
  pose proof (proj2 (proj2 (connect_outcomes pairing_env 30%float
                              (new_connection (PStr "AA:BB"), empty_world)))
                eq_refl) as Hcases.
  pose proof (proj1 (proj2 (proj2 (proj2 Hcases)))
                "Insufficient Encryption (0x0F)" eq_refl eq_refl eq_refl eq_refl)
    as Hp.
  split; [exact (proj1 Hp)|].
  split; [exact (proj1 (proj2 Hp) eq_refl eq_refl)|].
  exact (proj1 (proj2 (proj2 (connect_outcomes absent_env 30%float
                               (new_connection (PStr "AA:BB"), empty_world)))
                 eq_refl) (TimeoutError "") eq_refl).
Defined.

(** C8 as stated fails: the first privileged read fails with a transport
    error, and [connect] returns true. *)
Lemma connect_true_on_read_error :
  dev_read unreadable_env POWER_CHAR_UUID =
    Raised (BleakError "Characteristic not found") /\
  result_of (connect unreadable_env 30%float (new_connection (PStr "AA:BB"), empty_world))
    = Ok true.
Proof. vm_compute. split; reflexivity. Qed.

(* ================================================================== *)
(** ** The command router *)

Lemma dispatch_not_connected (env : Env) (request : dict) (st : DaemonSt) :
  link_connected (fst st) = false ->
  In (dict_get "cmd" request) [PStr "on"; PStr "off"; PStr "brightness"; PStr "status"] ->
  dispatch env request st = (Ok (Some not_connected), st, []).
Proof.
  intros Hl Hcmd. destruct st as [d w]. cbn in Hl.
  unfold dispatch.
  destruct Hcmd as [<-|[<-|[<-|[<-|[]]]]]; run_daemon; rewrite Hl; reflexivity.
Qed.

Lemma dispatch_shutdown (env : Env) (request : dict) :
  dict_get "cmd" request = PStr "shutdown" ->
  dispatch env request =
  (writer_write shutting_down ;; writer_drain env ;; writer_close ;; stop env ;; ret None).
Proof. intros H. unfold dispatch. rewrite H. reflexivity. Qed.

Lemma dispatch_brightness (env : Env) (request : dict) :
  dict_get "cmd" request = PStr "brightness" ->
  dispatch env request =
  (let level := dict_get_default "level" request (PInt 50) in
   st <- get ;;
   if link_connected (fst st) then
     success <- on_connection (set_brightness env level) ;;
     ret (Some [("ok", PBool success)])
   else ret (Some not_connected)).
Proof. intros H. unfold dispatch. rewrite H. reflexivity. Qed.

(** C2, as the code has it: a request [on], [off], [brightness] or [status]
    that finds the link not connected is answered "Not connected" at once;
    the daemon attempts no connect (no wire operation at all) and its state
    is unchanged. *)
Theorem not_connected_is_answered_without_connect
    (env : Env) (request : dict) (st : DaemonSt) :
  link_connected (fst st) = false ->
  In (dict_get "cmd" request) [PStr "on"; PStr "off"; PStr "brightness"; PStr "status"] ->
  state_of (handle_client env (ReadRequest request) st) = st /\
  exists rest,
    events_of (handle_client env (ReadRequest request) st) =
      SockWrite not_connected :: SockDrain :: rest /\
    existsb is_wire rest = false.
Proof.
  intros Hl Hcmd.
  pose proof (dispatch_not_connected env request st Hl Hcmd) as Hd.
  unfold handle_client. run. rewrite Hd. run_daemon.
  case_outcome (peer_drain env); run_daemon;
    try case_outcome (peer_drain env); cbn;
    (split; [reflexivity|]); eexists; split; reflexivity.
Qed.

Lemma not_connected_is_answered_without_connect_witness :
  state_of (handle_client good_env (ReadRequest [("cmd", PStr "status")])
              (new_daemon, empty_world)) = (new_daemon, empty_world) /\
  exists rest,
    events_of (handle_client good_env (ReadRequest [("cmd", PStr "status")])
                 (new_daemon, empty_world)) =
      SockWrite not_connected :: SockDrain :: rest /\
    existsb is_wire rest = false.
Proof.
  apply (not_connected_is_answered_without_connect good_env
           [("cmd", PStr "status")] (new_daemon, empty_world)).
  - reflexivity.
  - vm_compute. right. right. right. left. reflexivity.
Defined.

(** C2 as stated fails: the identity is known twice over, in the request and
    in the config file, and [on] is answered "Not connected" with no connect
    attempted. *)
Lemma known_identity_not_connected :
  handle_client good_env
    (ReadRequest [("cmd", PStr "on"); ("address", PStr "AA:BB")])
    (new_daemon, mkWorld [("last_address", PStr "AA:BB")] true) =
  (Ok tt, (new_daemon, mkWorld [("last_address", PStr "AA:BB")] true),
   [SockWrite not_connected; SockDrain; SockClose; SockWaitClosed]).
Proof. vm_compute. reflexivity. Qed.

(** C3, as the code has it: on a connected link a level outside 1..100 is
    clamped into 1..100 and forwarded; the wire value of the clamped level
    is written under the lock and, the write succeeding, the answer is
    [{ok: true}]. *)
Theorem out_of_range_brightness_is_clamped
    (env : Env) (request : dict) (st : DaemonSt) (level : Z) :
  dict_get "cmd" request = PStr "brightness" ->
  dict_get "level" request = PInt level ->
  level < 1 \/ 100 < level ->
  link_connected (fst st) = true ->
  (forall data, dev_write env BRIGHTNESS_CHAR_UUID data = Ok tt) ->
  exists b rest,
    byte_value b = Z.max 1 (Z.min 100 level) * 253 / 100 + 1 /\
    events_of (handle_client env (ReadRequest request) st) =
      LockAcquire :: BleWrite BRIGHTNESS_CHAR_UUID [b] :: LockRelease ::
      SockWrite [("ok", PBool true)] :: SockDrain :: rest.
Proof.
  intros Hcmd Hlevel Hout Hl Hw.
  assert (Hlv : dict_get_default "level" request (PInt 50) = PInt level)
    by (apply dict_get_default_present; [discriminate | exact Hlevel]).
  assert (Hrange : 0 <= Z.max 1 (Z.min 100 level) * 253 / 100 + 1 < 256).
  { assert (0 <= Z.max 1 (Z.min 100 level) * 253 / 100 <= 253); [|lia].
    split; [apply Z.div_pos; lia | apply Z.div_le_upper_bound; lia]. }
  destruct (bytes_of_value_byte _ Hrange) as (b & Hb & Hbv).
  exists b.
  unfold handle_client. rewrite (dispatch_brightness env request Hcmd), Hlv.
  destruct st as [[conn srv] w].
  destruct conn as [c|]; [case_connection c|]; try discriminate Hl.
  run_daemon.
  change (clamp_percent (PInt level)) with (Ok (A:=Z) (Z.max 1 (Z.min 100 level))).
  run. rewrite brightness_value_quotient by lia. run. rewrite Hb. run.
  rewrite Hw. run_daemon.
  case_unit_outcome (peer_drain env); run_daemon;
    try case_unit_outcome (peer_drain env);
    eexists; (split; [exact Hbv | reflexivity]).
Qed.

Lemma out_of_range_brightness_is_clamped_witness :
  exists b rest,
    byte_value b = Z.max 1 (Z.min 100 150) * 253 / 100 + 1 /\
    events_of (handle_client good_env
                 (ReadRequest [("cmd", PStr "brightness"); ("level", PInt 150)])
                 (live_daemon, empty_world)) =
      LockAcquire :: BleWrite BRIGHTNESS_CHAR_UUID [b] :: LockRelease ::
      SockWrite [("ok", PBool true)] :: SockDrain :: rest.
Proof.
  apply (out_of_range_brightness_is_clamped good_env
           [("cmd", PStr "brightness"); ("level", PInt 150)]
           (live_daemon, empty_world) 150).
  - reflexivity.
  - reflexivity.
  - right. lia.
  - reflexivity.
  - intros data. reflexivity.
Defined.

(** C3 as stated fails: after a successful connect, [brightness] with level
    150 writes the byte 254 to the transport and is answered [{ok: true}]. *)
Lemma brightness_150_is_written :
  handle_client good_env
    (ReadRequest [("cmd", PStr "brightness"); ("level", PInt 150)])
    (live_daemon, empty_world) =
  (Ok tt, (live_daemon, empty_world),
   [LockAcquire; BleWrite BRIGHTNESS_CHAR_UUID [xfe]; LockRelease;
    SockWrite [("ok", PBool true)]; SockDrain; SockClose; SockWaitClosed]).
Proof. vm_compute. reflexivity. Qed.

(** C6 at the failing input: a daemon started with no saved address has no
    connection object, and its answer to [ping] carries [connected: None]
    (JSON null), not [false]. *)
Theorem ping_fresh_daemon_connected_is_null (env : Env) :
  state_of (start env (new_daemon, empty_world)) =
    (mkHueDaemon None (Some (mkServer true)), mkWorld [] true) /\
  exists rest,
    events_of (handle_client env (ReadRequest [("cmd", PStr "ping")])
                 (state_of (start env (new_daemon, empty_world)))) =
    SockWrite [("ok", PBool true); ("connected", PNone)] :: SockDrain :: rest.
Proof.
  split; [reflexivity|].
  destruct env as [dc lu dr dw dp dd fs pd].
  case_unit_outcome pd; eexists; reflexivity.
Qed.

(** With a connection object the field is a bool. *)
Example ping_live_daemon :
  events_of (handle_client good_env (ReadRequest [("cmd", PStr "ping")])
               (live_daemon, empty_world)) =
  [SockWrite [("ok", PBool true); ("connected", PBool true)]; SockDrain;
   SockClose; SockWaitClosed].
Proof. vm_compute. reflexivity. Qed.

(** C9. Handling [shutdown] begins by writing the response
    [{ok: true, message: "Shutting down"}] and flushing it; every teardown
    step (disconnecting the link, closing the server, removing the pid file)
    comes after, and only if the flush succeeded. *)
Theorem shutdown_responds_first (env : Env) (request : dict) (st : DaemonSt) :
  dict_get "cmd" request = PStr "shutdown" ->
  exists rest,
    events_of (handle_client env (ReadRequest request) st) =
      SockWrite shutting_down :: SockDrain :: rest /\
    (existsb is_teardown rest = true -> peer_drain env = Ok tt).
Proof.
  intros Hcmd. unfold handle_client. rewrite (dispatch_shutdown env request Hcmd).
  destruct env as [dc lu dr dw dp dd fs pd].
  destruct st as [[conn srv] [cfg pid]].
  case_unit_outcome pd.
  - (* the response was flushed: whatever follows, follows it *)
    run_daemon.
    match goal with
    | |- exists rest, ?evs = _ :: _ :: rest /\ _ =>
        exists (skipn 2 evs); split; [|reflexivity]
    end.
    destruct conn as [c|]; [case_connection c|]; destruct srv, pid;
      try case_unit_outcome dd; reflexivity.
  - run_daemon. eexists. split; [reflexivity|]. cbn. discriminate.
  - run_daemon. eexists. split; [reflexivity|]. cbn. discriminate.
  - run_daemon. eexists. split; [reflexivity|]. cbn. discriminate.
Qed.

Lemma shutdown_responds_first_witness :
  exists rest,
    events_of (handle_client good_env (ReadRequest [("cmd", PStr "shutdown")])
                 (live_daemon, mkWorld [] true)) =
      SockWrite shutting_down :: SockDrain :: rest /\
    (existsb is_teardown rest = true -> peer_drain good_env = Ok tt).
Proof.
  apply (shutdown_responds_first good_env [("cmd", PStr "shutdown")]
           (live_daemon, mkWorld [] true)).
  reflexivity.
Defined.

(** The teardown that follows, on a serving daemon with a live link. *)
Example shutdown_live_daemon :
  events_of (handle_client good_env (ReadRequest [("cmd", PStr "shutdown")])
               (live_daemon, mkWorld [] true)) =
  [SockWrite shutting_down; SockDrain; SockClose; BleDisconnect; ServerClose;
   ServerWaitClosed; PidUnlink; Stdout "Daemon stopped."; SockClose; SockWaitClosed].
Proof. vm_compute. reflexivity. Qed.



(** The default at work: 50 percent is the byte 127, and the answer is
    [{ok: true}]. *)
Example brightness_without_level :
  events_of (handle_client good_env (ReadRequest [("cmd", PStr "brightness")])
               (live_daemon, empty_world)) =
  [LockAcquire; BleWrite BRIGHTNESS_CHAR_UUID [x7f]; LockRelease;
   SockWrite [("ok", PBool true)]; SockDrain; SockClose; SockWaitClosed].
Proof. vm_compute. reflexivity. Qed.

(* ================================================================== *)
(** * Further properties of the connection manager *)

(** A connection on which [connect] has returned true is connected. *)
Lemma connect_true_is_connected (env : Env) (timeout : float) (st : ConnSt) :
  result_of (connect env timeout st) = Ok true ->
  is_connected (fst (state_of (connect env timeout st))) = true.
Proof.
  destruct st as [self w]. destruct env as [dc lu dr dw dp dd fs pd].
  case_connection self; try (intros _; reflexivity);
    run; case_unit_outcome dc; run; try discriminate;
    unfold set_client_is_connected, client_up; cbn;
    destruct lu; run; try discriminate;
    (case_outcome (dr POWER_CHAR_UUID); run;
     [| | match goal with
          | |- context [contains ?a ?m || contains ?b ?m] =>
              destruct (contains a m || contains b m)
          end; run; try case_unit_outcome dp; run |];
     case_unit_outcome fs; run; try discriminate; intros _; reflexivity).
Qed.

(** X1. [connect] is idempotent: once it has returned true the connection is
    connected, and a further [connect] returns true at once, opens no second
    link (no event at all) and changes nothing. *)
Theorem connect_twice_is_one_link (env : Env) (timeout timeout' : float) (st : ConnSt) :
  result_of (connect env timeout st) = Ok true ->
  is_connected (fst (state_of (connect env timeout st))) = true /\
  connect env timeout' (state_of (connect env timeout st)) =
    (Ok true, state_of (connect env timeout st), []).
Proof.
  intros H. pose proof (connect_true_is_connected env timeout st H) as Hc.
  split; [exact Hc|].
  destruct (state_of (connect env timeout st)) as [self' w']. cbn in Hc.
  run. rewrite Hc. reflexivity.
Qed.

Lemma connect_twice_is_one_link_witness :
  is_connected (fst (state_of (connect good_env 30%float
                                 (new_connection (PStr "AA:BB"), empty_world)))) = true /\
  connect good_env 5%float
    (state_of (connect good_env 30%float (new_connection (PStr "AA:BB"), empty_world))) =
    (Ok true,
     state_of (connect good_env 30%float (new_connection (PStr "AA:BB"), empty_world)),
     []).
Proof.
  apply (connect_twice_is_one_link good_env 30%float 5%float
           (new_connection (PStr "AA:BB"), empty_world)).
  reflexivity.
Defined.

(** X2. A failure after the link is up does not take the link down: when the
    transport connects and the probing read answers, but the address cannot
    be saved, [connect] returns false and the connection is nevertheless
    connected, with the link still open (no disconnect is issued). *)
Theorem connect_false_leaves_link_up
    (env : Env) (timeout : float) (st : ConnSt) (data : list byte) (e : exn) :
  is_connected (fst st) = false ->
  dev_connect env = Ok tt -> dev_link_up env = true ->
  dev_read env POWER_CHAR_UUID = Ok data ->
  fs_save_config env = Raised e ->
  result_of (connect env timeout st) = Ok false /\
  is_connected (fst (state_of (connect env timeout st))) = true /\
  existsb (fun ev => match ev with BleDisconnect => true | _ => false end)
          (events_of (connect env timeout st)) = false.
Proof.
  destruct st as [self w]. intros Hc He Hl Hr Hs.
  run. cbn in Hc. rewrite Hc. run. rewrite He. run.
  unfold set_client_is_connected, client_up. cbn. rewrite Hl. run.
  rewrite Hr. run. rewrite Hs. destruct e; cbn; auto.
Qed.

(** A disk that cannot be written. *)
Lemma connect_false_leaves_link_up_witness :
  let env := mkEnv (Ok tt) true (fun _ => Ok [x01]) (fun _ _ => Ok tt) (Ok tt) (Ok tt)
                   (Raised (PyException "Permission denied")) (Ok tt) in
  let st := (new_connection (PStr "AA:BB"), empty_world) in
  result_of (connect env 30%float st) = Ok false /\
  is_connected (fst (state_of (connect env 30%float st))) = true /\
  existsb (fun ev => match ev with BleDisconnect => true | _ => false end)
          (events_of (connect env 30%float st)) = false.
Proof.
  intros env st.
  apply (connect_false_leaves_link_up env 30%float st [x01]
           (PyException "Permission denied")); reflexivity.
Defined.

(** After the transport's disconnected callback has run, the connection
    is not connected, and [turn_on], [turn_off], [set_brightness] and
    [get_state] fail fast: they return False (or None) without taking the
    lock, without any wire operation, and leave the state as it is. *)
Lemma commands_fail_fast_after_link_loss
    (env : Env) (self : HueBulbConnection) (w : World) (percent : pyval) :
  let st := (_on_disconnect self, w) in
  is_connected (fst st) = false /\
  turn_on env st = (Ok false, st, []) /\
  turn_off env st = (Ok false, st, []) /\
  set_brightness env percent st = (Ok false, st, []) /\
  get_state env st = (Ok None, st, []).
Proof. destruct self as [a c ev cn]. cbn. repeat split. Qed.

(** X3. Whatever integer [set_brightness] is given on a connected link, the
    one thing it sends over the wire is a write of a single byte between 3
    and 254 to the brightness characteristic: the bytes 0 and 255 are never
    written, however far out of range the percent is. *)
Theorem brightness_byte_bounds (env : Env) (percent : Z) (st : ConnSt) :
  is_connected (fst st) = true ->
  exists b,
    3 <= byte_value b <= 254 /\
    filter is_wire (events_of (set_brightness env (PInt percent) st)) =
      [BleWrite BRIGHTNESS_CHAR_UUID [b]].
Proof.
  intros Hc.
  destruct (brightness_value_byte (Z.max 1 (Z.min 100 percent))) as (b & Hb & Hv);
    [lia|].
  rewrite brightness_value_quotient in Hb by lia. cbn [outcome_bind] in Hb.
  exists b. split.
  - rewrite Hv.
    assert (2 <= Z.max 1 (Z.min 100 percent) * 253 / 100 <= 253); [|lia].
    split; [apply Z.div_le_lower_bound; lia | apply Z.div_le_upper_bound; lia].
  - destruct st as [self w]. case_connection self; try discriminate Hc.
    run.
    change (clamp_percent (PInt percent))
      with (Ok (A:=Z) (Z.max 1 (Z.min 100 percent))).
    run. rewrite brightness_value_quotient by lia. run. rewrite Hb. run.
    case_outcome (dev_write env BRIGHTNESS_CHAR_UUID [b]); reflexivity.
Qed.

Lemma brightness_byte_bounds_witness :
  exists b,
    3 <= byte_value b <= 254 /\
    filter is_wire (events_of (set_brightness good_env (PInt (-7))
                                 (live_connection, empty_world))) =
      [BleWrite BRIGHTNESS_CHAR_UUID [b]].
Proof.
  apply (brightness_byte_bounds good_env (-7) (live_connection, empty_world)).
  reflexivity.
Defined.

(** The percent-to-wire mapping is monotone on 1..100: a higher percent
    never gives a lower wire value. *)
Lemma brightness_value_monotone (p q : Z) :
  1 <= p <= q -> q <= 100 ->
  exists vp vq,
    brightness_value p = Ok vp /\ brightness_value q = Ok vq /\ vp <= vq.
Proof.
  intros Hp Hq.
  exists (p * 253 / 100 + 1), (q * 253 / 100 + 1).
  repeat split; try (apply brightness_value_quotient; lia).
  assert (p * 253 / 100 <= q * 253 / 100) by (apply Z.div_le_mono; lia). lia.
Qed.

(** What [get_state] gives on a connected link whose two reads answer. *)
Lemma get_state_connected
    (env : Env) (st : ConnSt) (power_data brightness_data : list byte) :
  is_connected (fst st) = true ->
  dev_read env POWER_CHAR_UUID = Ok power_data ->
  dev_read env BRIGHTNESS_CHAR_UUID = Ok brightness_data ->
  exists percent,
    1 <= percent <= 100 /\
    get_state env st =
      (Ok (Some [("power",
                  PStr (if match power_data with
                           | b :: _ => byte_value b =? 1
                           | [] => false
                           end then "on" else "off"));
                 ("brightness", PInt percent)]),
       st,
       [LockAcquire; BleRead POWER_CHAR_UUID; BleRead BRIGHTNESS_CHAR_UUID;
        LockRelease]).
Proof.
  destruct st as [self w]. intros Hc Hp Hb.
  assert (Hraw : exists raw : byte,
            match brightness_data with b :: _ => byte_value b | [] => 1 end
            = byte_value raw).
  { destruct brightness_data as [|b ?]; [exists x01 | exists b]; reflexivity. }
  destruct Hraw as [raw Hraw].
  exists (Z.max 1 (Z.min 100 (Z.quot ((byte_value raw - 1) * 100) 253))).
  split; [lia|].
  case_connection self; try discriminate Hc.
  run. rewrite Hp. run. rewrite Hb. run.
  rewrite Hraw, brightness_percent_quotient. reflexivity.
Qed.

(** X4. What [get_state] reports on a connected link whose two reads answer:
    power is "on" exactly when the first power byte is 1 (an empty answer
    counts as off), and brightness is a percent between 1 and 100 whatever
    the brightness byte (an empty answer counts as the raw value 1). *)
Theorem get_state_reading
    (env : Env) (st : ConnSt) (power_data brightness_data : list byte) :
  is_connected (fst st) = true ->
  dev_read env POWER_CHAR_UUID = Ok power_data ->
  dev_read env BRIGHTNESS_CHAR_UUID = Ok brightness_data ->
  exists percent,
    1 <= percent <= 100 /\
    get_state env st =
      (Ok (Some [("power",
                  PStr (if match power_data with
                           | b :: _ => byte_value b =? 1
                           | [] => false
                           end then "on" else "off"));
                 ("brightness", PInt percent)]),
       st,
       [LockAcquire; BleRead POWER_CHAR_UUID; BleRead BRIGHTNESS_CHAR_UUID;
        LockRelease]).
Proof. exact (get_state_connected env st power_data brightness_data). Qed.

Lemma get_state_reading_witness :
  exists percent,
    1 <= percent <= 100 /\
    get_state good_env (live_connection, empty_world) =
      (Ok (Some [("power", PStr "on"); ("brightness", PInt percent)]),
       (live_connection, empty_world),
       [LockAcquire; BleRead POWER_CHAR_UUID; BleRead BRIGHTNESS_CHAR_UUID;
        LockRelease]).
Proof.
  apply (get_state_reading good_env (live_connection, empty_world) [x01] [x7f]);
    reflexivity.
Defined.

(** X5. No operation retries: whatever the transport answers, [turn_on],
    [turn_off] and [set_brightness] issue at most one wire operation, and
    [get_state] at most two. *)
Theorem commands_never_retry (env : Env) (percent : pyval) (st : ConnSt) :
  (List.length (filter is_wire (events_of (turn_on env st))) <= 1)%nat /\
  (List.length (filter is_wire (events_of (turn_off env st))) <= 1)%nat /\
  (List.length (filter is_wire (events_of (set_brightness env percent st))) <= 1)%nat /\
  (List.length (filter is_wire (events_of (get_state env st))) <= 2)%nat.
Proof.
  destruct st as [self w].
  repeat split; case_connection self; try (cbn; lia); run.
  - case_outcome (dev_write env POWER_CHAR_UUID [x01]); cbn; lia.
  - case_outcome (dev_write env POWER_CHAR_UUID [x00]); cbn; lia.
  - case_outcome (clamp_percent percent); [|cbn; lia..]. run.
    case_outcome (brightness_value u); [|cbn; lia..]. run.
    case_outcome (bytes_of_value u0); [|cbn; lia..]. run.
    case_outcome (dev_write env BRIGHTNESS_CHAR_UUID u1); cbn; lia.
  - case_outcome (dev_read env POWER_CHAR_UUID); [|cbn; lia..]. run.
    case_outcome (dev_read env BRIGHTNESS_CHAR_UUID); [|cbn; lia..]. run.
    match goal with
    | |- context [brightness_percent ?r] => case_outcome (brightness_percent r)
    end; cbn; lia.
Qed.

(* ================================================================== *)
(** * Further properties of the daemon *)

Lemma cleanup_closes (st : DaemonSt) :
  (writer_close ;; try_except writer_wait_closed (fun _ => ret tt)) st =
  (Ok tt, st, [SockClose; SockWaitClosed]).
Proof. reflexivity. Qed.

(** The handler of [except Exception] never raises. *)
Lemma error_handler_ok (env : Env) (e : exn) (st : DaemonSt) :
  exists t,
    match e with
    | TimeoutError _ => ret tt
    | _ =>
        try_except
          (writer_write [("ok", PBool false); ("error", PStr (exn_str e))] ;;
           writer_drain env)
          (fun _ => ret tt)
    end st = (Ok tt, st, t).
Proof.
  destruct env as [dc lu dr dw dp dd fs pd].
  destruct e; run_daemon; try (eexists; reflexivity);
    case_unit_outcome pd; eexists; reflexivity.
Qed.

Lemma try_except_total {S : Type} (body : M S unit) (handler : exn -> M S unit) (s : S) :
  (forall e s1, exists t, handler e s1 = (Ok tt, s1, t)) ->
  result_of (try_except body handler s) = Ok tt.
Proof.
  intros H. unfold try_except.
  destruct (body s) as [[[[]|e] s0] t0]; [reflexivity|].
  destruct (H e s0) as [t ->]. reflexivity.
Qed.

(** X6. A session never raises and always releases its socket: whatever
    arrives, whatever the daemon's state and whatever the collaborators do,
    [handle_client] returns normally and its last two steps are
    [writer.close()] and [writer.wait_closed()]. *)
Theorem session_always_closes (env : Env) (reader : incoming) (st : DaemonSt) :
  result_of (handle_client env reader st) = Ok tt /\
  exists t,
    events_of (handle_client env reader st) = t ++ [SockClose; SockWaitClosed].
Proof.
  unfold handle_client, try_finally.
  match goal with
  | |- context [try_except ?body ?handler st] =>
      pose proof (try_except_total body handler st (error_handler_ok env)) as Hr;
      destruct (try_except body handler st) as [[r s1] t1]
  end.
  rewrite cleanup_closes. cbn in *.
  split; [exact Hr | exists t1; reflexivity].
Qed.

(** X7. Sessions without a request.  When no line arrives in time, or the
    line is empty, the socket is closed without any response; a line that
    does not decode is answered [{ok: false, error: <message>}].  In all
    three cases the daemon's state is untouched and nothing goes over the
    wire. *)
Theorem sessions_without_request (env : Env) (st : DaemonSt) (msg : string) :
  handle_client env ReadTimeout st = (Ok tt, st, [SockClose; SockWaitClosed]) /\
  handle_client env ReadEof st = (Ok tt, st, [SockClose; SockWaitClosed]) /\
  handle_client env (ReadMalformed msg) st =
    (Ok tt, st,
     [SockWrite [("ok", PBool false); ("error", PStr msg)]; SockDrain;
      SockClose; SockWaitClosed]).
Proof.
  destruct env as [dc lu dr dw dp dd fs pd].
  repeat split. case_unit_outcome pd; reflexivity.
Qed.

Lemma dispatch_unknown (env : Env) (request : dict) :
  (forall c, In c ["ping"; "connect"; "disconnect"; "on"; "off"; "brightness";
                   "status"; "shutdown"] ->
             py_eqb (dict_get "cmd" request) (PStr c) = false) ->
  dispatch env request = ret (Some unknown_command).
Proof.
  intros H. unfold dispatch.
  repeat (rewrite H; [|simpl; tauto]). reflexivity.
Qed.

(** X8. A request whose [cmd] is none of the eight commands (or is missing)
    is answered [{ok: false, error: "Unknown command"}]; the daemon's state
    is unchanged and nothing goes over the wire. *)
Theorem unknown_command_is_refused (env : Env) (request : dict) (st : DaemonSt) :
  (forall c, In c ["ping"; "connect"; "disconnect"; "on"; "off"; "brightness";
                   "status"; "shutdown"] ->
             py_eqb (dict_get "cmd" request) (PStr c) = false) ->
  state_of (handle_client env (ReadRequest request) st) = st /\
  exists rest,
    events_of (handle_client env (ReadRequest request) st) =
      SockWrite unknown_command :: SockDrain :: rest /\
    existsb is_wire rest = false.
Proof.
  intros H. unfold handle_client. rewrite (dispatch_unknown env request H).
  destruct env as [dc lu dr dw dp dd fs pd].
  case_unit_outcome pd; run_daemon; try case_unit_outcome pd;
    (split; [reflexivity|]); eexists; split; reflexivity.
Qed.

Lemma unknown_command_is_refused_witness :
  state_of (handle_client good_env (ReadRequest [("cmd", PStr "toggle")])
              (live_daemon, empty_world)) = (live_daemon, empty_world) /\
  exists rest,
    events_of (handle_client good_env (ReadRequest [("cmd", PStr "toggle")])
                 (live_daemon, empty_world)) =
      SockWrite unknown_command :: SockDrain :: rest /\
    existsb is_wire rest = false.
Proof.
  apply (unknown_command_is_refused good_env [("cmd", PStr "toggle")]
           (live_daemon, empty_world)).
  intros c Hc. simpl in Hc.
  repeat (destruct Hc as [<-|Hc]; [reflexivity|]). contradiction.
Defined.

Lemma dispatch_connect (env : Env) (request : dict) :
  dict_get "cmd" request = PStr "connect" ->
  dispatch env request =
  (response <- handle_connect env request unknown_command ;; ret (Some response)).
Proof. intros H. unfold dispatch. rewrite H. reflexivity. Qed.

Lemma dispatch_disconnect (env : Env) (request : dict) :
  dict_get "cmd" request = PStr "disconnect" ->
  dispatch env request =
  (st <- get ;;
   match connection (fst st) with
   | Some _ => on_connection (disconnect env) ;; set_connection None
   | None => ret tt
   end ;;
   ret (Some [("ok", PBool true)])).
Proof. intros H. unfold dispatch. rewrite H. reflexivity. Qed.

(** X9. [connect] with no address to go by: when the request carries no
    (non-empty) address and the config file holds none, the answer is
    [{ok: false, error: "No address specified"}], nothing goes over the wire
    and the daemon's state is unchanged. *)
Theorem connect_without_address (env : Env) (request : dict) (st : DaemonSt) :
  dict_get "cmd" request = PStr "connect" ->
  truthy (dict_get "address" request) = false ->
  truthy (dict_get "last_address" (config_file (snd st))) = false ->
  state_of (handle_client env (ReadRequest request) st) = st /\
  exists rest,
    events_of (handle_client env (ReadRequest request) st) =
      SockWrite [("ok", PBool false); ("error", PStr "No address specified")]
      :: SockDrain :: rest /\
    existsb is_wire rest = false.
Proof.
  intros Hcmd Ha Hl. unfold handle_client. rewrite (dispatch_connect env request Hcmd).
  destruct env as [dc lu dr dw dp dd fs pd]. destruct st as [d w]. cbn in Hl.
  unfold handle_connect. run_daemon. rewrite Ha. cbn. rewrite Hl. run_daemon.
  case_unit_outcome pd; run_daemon; try case_unit_outcome pd;
    (split; [reflexivity|]); eexists; split; reflexivity.
Qed.

Lemma connect_without_address_witness :
  state_of (handle_client good_env (ReadRequest [("cmd", PStr "connect")])
              (new_daemon, empty_world)) = (new_daemon, empty_world) /\
  exists rest,
    events_of (handle_client good_env (ReadRequest [("cmd", PStr "connect")])
                 (new_daemon, empty_world)) =
      SockWrite [("ok", PBool false); ("error", PStr "No address specified")]
      :: SockDrain :: rest /\
    existsb is_wire rest = false.
Proof.
  apply (connect_without_address good_env [("cmd", PStr "connect")]
           (new_daemon, empty_world)); reflexivity.
Defined.

(** The address a [connect] request resolves to: its own, or failing that
    the saved one. *)
Lemma resolved_address (request : dict) (w : World) (a : pyval) :
  truthy a = true ->
  (dict_get "address" request = a \/
   (truthy (dict_get "address" request) = false /\
    dict_get "last_address" (config_file w) = a)) ->
  (if negb (truthy (dict_get "address" request))
   then dict_get "last_address" (config_file w)
   else dict_get "address" request) = a.
Proof.
  intros Ht [H|[Hf H]].
  - rewrite H, Ht. reflexivity.
  - rewrite Hf. exact H.
Qed.

(** X10. [connect] to the identity the daemon is already connected to (given
    in the request, or taken from the config file when the request has
    none) is answered [{ok: true, message: "Already connected"}]: no second
    link is opened, nothing goes over the wire, the state is unchanged. *)
Theorem connect_when_already_connected
    (env : Env) (request : dict) (d : HueDaemon) (w : World)
    (c : HueBulbConnection) (a : pyval) :
  dict_get "cmd" request = PStr "connect" ->
  truthy a = true ->
  (dict_get "address" request = a \/
   (truthy (dict_get "address" request) = false /\
    dict_get "last_address" (config_file w) = a)) ->
  connection d = Some c -> is_connected c = true ->
  py_eqb (address c) a = true ->
  state_of (handle_client env (ReadRequest request) (d, w)) = (d, w) /\
  exists rest,
    events_of (handle_client env (ReadRequest request) (d, w)) =
      SockWrite [("ok", PBool true); ("message", PStr "Already connected")]
      :: SockDrain :: rest /\
    existsb is_wire rest = false.
Proof.
  intros Hcmd Ht Ha Hc Hic Heq.
  pose proof (resolved_address request w a Ht Ha) as Hres.
  unfold handle_client. rewrite (dispatch_connect env request Hcmd).
  destruct env as [dc lu dr dw dp dd fs pd]. destruct d as [conn srv].
  cbn in Hc. subst conn.
  unfold handle_connect. run_daemon. rewrite Hres, Ht. cbn.
  rewrite Hic. unfold address_of. rewrite Heq. run_daemon.
  unfold link_connected. cbn. rewrite Hic. run_daemon.
  case_unit_outcome pd; run_daemon; try case_unit_outcome pd;
    (split; [reflexivity|]); eexists; split; reflexivity.
Qed.

Lemma connect_when_already_connected_witness :
  state_of (handle_client good_env
              (ReadRequest [("cmd", PStr "connect"); ("address", PStr "AA:BB")])
              (live_daemon, empty_world)) = (live_daemon, empty_world) /\
  exists rest,
    events_of (handle_client good_env
                 (ReadRequest [("cmd", PStr "connect"); ("address", PStr "AA:BB")])
                 (live_daemon, empty_world)) =
      SockWrite [("ok", PBool true); ("message", PStr "Already connected")]
      :: SockDrain :: rest /\
    existsb is_wire rest = false.
Proof.
  apply (connect_when_already_connected good_env
           [("cmd", PStr "connect"); ("address", PStr "AA:BB")]
           live_daemon empty_world live_connection (PStr "AA:BB"));
    try reflexivity.
  left. reflexivity.
Defined.

(** The address of a connection is fixed at its creation. *)
Lemma connect_keeps_address (env : Env) (timeout : float) (st : ConnSt) :
  address (fst (state_of (connect env timeout st))) = address (fst st).
Proof.
  destruct st as [self w]. destruct env as [dc lu dr dw dp dd fs pd].
  case_connection self; try reflexivity;
    run; case_unit_outcome dc; run; try reflexivity;
    unfold set_client_is_connected, client_up; cbn;
    destruct lu; run; try reflexivity;
    (case_outcome (dr POWER_CHAR_UUID); run;
     [| | match goal with
          | |- context [contains ?a ?m || contains ?b ?m] =>
              destruct (contains a m || contains b m)
          end; run; try case_unit_outcome dp; run |];
     case_unit_outcome fs; run; reflexivity).
Qed.

(** X11. [connect] to another identity than the connected one, when the
    transport's disconnect of the old link does not fail, tears the old link
    down first: the transport's disconnect comes before the connect to the
    new address, and the daemon ends up holding a connection object for the
    requested address. *)
Theorem connect_switches_identity
    (env : Env) (request : dict) (d : HueDaemon) (w : World)
    (c : HueBulbConnection) (a : pyval) :
  dict_get "cmd" request = PStr "connect" ->
  truthy a = true ->
  (dict_get "address" request = a \/
   (truthy (dict_get "address" request) = false /\
    dict_get "last_address" (config_file w) = a)) ->
  connection d = Some c -> is_connected c = true ->
  py_eqb (address c) a = false ->
  dev_disconnect env = Ok tt ->
  (exists rest,
     events_of (handle_client env (ReadRequest request) (d, w)) =
       BleDisconnect :: Stdout ("Connecting to " ++ py_str a ++ "...")%string
       :: BleConnect a :: rest) /\
  (exists c',
     connection (fst (state_of (handle_client env (ReadRequest request) (d, w))))
       = Some c' /\ address c' = a).
Proof.
  intros Hcmd Ht Ha Hc Hic Heq Hd.
  pose proof (resolved_address request w a Ht Ha) as Hres.
  unfold handle_client. rewrite (dispatch_connect env request Hcmd).
  destruct env as [dc lu dr dw dp dd fs pd]. cbn in Hd. subst dd.
  destruct d as [conn srv]. cbn in Hc. subst conn.
  unfold handle_connect. run_daemon. rewrite Hres, Ht. cbn.
  rewrite Hic. unfold address_of. rewrite Heq.
  case_connection c; try discriminate Hic.
  run_daemon.
  case_unit_outcome dc; run_daemon;
    unfold set_client_is_connected, client_up; cbn;
    try (destruct lu; run_daemon);
    try (case_outcome (dr POWER_CHAR_UUID); run_daemon;
         [| | match goal with
              | |- context [contains ?a ?m || contains ?b ?m] =>
                  destruct (contains a m || contains b m)
              end; run_daemon; try case_unit_outcome dp; run_daemon |];
         try case_unit_outcome fs; run_daemon);
    case_unit_outcome pd; run_daemon; try case_unit_outcome pd;
    (split; [eexists; reflexivity | eexists; split; reflexivity]).
Qed.

Lemma connect_switches_identity_witness :
  (exists rest,
     events_of (handle_client good_env
                  (ReadRequest [("cmd", PStr "connect"); ("address", PStr "CC:DD")])
                  (live_daemon, empty_world)) =
       BleDisconnect :: Stdout ("Connecting to " ++ py_str (PStr "CC:DD") ++ "...")%string
       :: BleConnect (PStr "CC:DD") :: rest) /\
  (exists c',
     connection (fst (state_of (handle_client good_env
                                  (ReadRequest [("cmd", PStr "connect");
                                                ("address", PStr "CC:DD")])
                                  (live_daemon, empty_world))))
       = Some c' /\ address c' = PStr "CC:DD").
Proof.
  apply (connect_switches_identity good_env
           [("cmd", PStr "connect"); ("address", PStr "CC:DD")]
           live_daemon empty_world live_connection (PStr "CC:DD"));
    try reflexivity.
  left. reflexivity.
Defined.

(** X12. The [disconnect] command: when the transport's disconnect does not
    fail, the daemon forgets its connection object and answers
    [{ok: true}]; an open link is closed first, and with no connection
    object at all nothing goes over the wire. *)
Theorem disconnect_command (env : Env) (request : dict) (st : DaemonSt) :
  dict_get "cmd" request = PStr "disconnect" ->
  dev_disconnect env = Ok tt ->
  connection (fst (state_of (handle_client env (ReadRequest request) st))) = None /\
  first_response (events_of (handle_client env (ReadRequest request) st)) =
    Some [("ok", PBool true)] /\
  (link_connected (fst st) = true ->
   exists rest,
     events_of (handle_client env (ReadRequest request) st) =
       BleDisconnect :: SockWrite [("ok", PBool true)] :: rest) /\
  (connection (fst st) = None ->
   existsb is_wire (events_of (handle_client env (ReadRequest request) st)) = false).
Proof.
  intros Hcmd Hd. unfold handle_client. rewrite (dispatch_disconnect env request Hcmd).
  destruct env as [dc lu dr dw dp dd fs pd]. cbn in Hd. subst dd.
  destruct st as [[conn srv] w].
  destruct conn as [c|]; [destruct c as [a [[ca ct [|]]|] ev [|]]|];
    run_daemon; case_unit_outcome pd; run_daemon; try case_unit_outcome pd;
    repeat split; intros; try discriminate; try (eexists; reflexivity); reflexivity.
Qed.

Lemma disconnect_command_witness :
  connection (fst (state_of (handle_client good_env
                               (ReadRequest [("cmd", PStr "disconnect")])
                               (live_daemon, empty_world)))) = None /\
  first_response (events_of (handle_client good_env
                               (ReadRequest [("cmd", PStr "disconnect")])
                               (live_daemon, empty_world))) =
    Some [("ok", PBool true)].
Proof.
  pose proof (disconnect_command good_env [("cmd", PStr "disconnect")]
                (live_daemon, empty_world) eq_refl eq_refl) as H.
  split; [exact (proj1 H) | exact (proj1 (proj2 H))].
Defined.

(** X13. [stop] is idempotent.  When the transport's disconnect does not
    fail, [stop] returns normally and leaves the link down, the server not
    serving and the pid file removed; a second [stop] leaves exactly that
    state, touches no wire and removes no file. *)
Theorem stop_is_idempotent (env : Env) (st : DaemonSt) :
  dev_disconnect env = Ok tt ->
  let st' := state_of (stop env st) in
  result_of (stop env st) = Ok tt /\
  link_connected (fst st') = false /\
  listening (fst st') = false /\
  pid_file (snd st') = false /\
  state_of (stop env st') = st' /\
  existsb (fun ev => is_wire ev || match ev with PidUnlink => true | _ => false end)
          (events_of (stop env st')) = false.
Proof.
  intros Hd. destruct env as [dc lu dr dw dp dd fs pd]. cbn in Hd. subst dd.
  destruct st as [[conn srv] [cfg pid]].
  destruct conn as [c|]; [destruct c as [a [[ca ct [|]]|] ev [|]]|];
    destruct srv as [[sv]|], pid; cbn; repeat split.
Qed.

Lemma stop_is_idempotent_witness :
  let st' := state_of (stop good_env (live_daemon, mkWorld [] true)) in
  result_of (stop good_env (live_daemon, mkWorld [] true)) = Ok tt /\
  link_connected (fst st') = false /\
  listening (fst st') = false /\
  pid_file (snd st') = false /\
  state_of (stop good_env st') = st' /\
  existsb (fun ev => is_wire ev || match ev with PidUnlink => true | _ => false end)
          (events_of (stop good_env st')) = false.
Proof.
  apply (stop_is_idempotent good_env (live_daemon, mkWorld [] true)). reflexivity.
Defined.

(** X14. What [shutdown] leaves behind: once its response is flushed, and
    the transport's disconnect not failing, the session ends with the daemon
    in the state [stop] gives: link down, server closed, pid file removed. *)
Theorem shutdown_stops_the_daemon (env : Env) (request : dict) (st : DaemonSt) :
  dict_get "cmd" request = PStr "shutdown" ->
  peer_drain env = Ok tt ->
  dev_disconnect env = Ok tt ->
  let st' := state_of (handle_client env (ReadRequest request) st) in
  st' = state_of (stop env st) /\
  link_connected (fst st') = false /\
  listening (fst st') = false /\
  pid_file (snd st') = false.
Proof.
  intros Hcmd Hp Hd. unfold handle_client. rewrite (dispatch_shutdown env request Hcmd).
  destruct env as [dc lu dr dw dp dd fs pd]. cbn in Hp, Hd. subst dd pd.
  destruct st as [[conn srv] [cfg pid]].
  destruct conn as [c|]; [destruct c as [a [[ca ct [|]]|] ev [|]]|];
    destruct srv as [[sv]|], pid; cbn; repeat split.
Qed.

Lemma shutdown_stops_the_daemon_witness :
  let st' := state_of (handle_client good_env (ReadRequest [("cmd", PStr "shutdown")])
                         (live_daemon, mkWorld [] true)) in
  st' = state_of (stop good_env (live_daemon, mkWorld [] true)) /\
  link_connected (fst st') = false /\
  listening (fst st') = false /\
  pid_file (snd st') = false.
Proof.
  apply (shutdown_stops_the_daemon good_env [("cmd", PStr "shutdown")]
           (live_daemon, mkWorld [] true)); reflexivity.
Defined.

(** With both steps succeeding [start_booting] is [start]. *)
Lemma start_booting_ok (env : Env) (st : DaemonSt) :
  start_booting env (mkBoot (Ok tt) (Ok tt)) st = start env st.
Proof.
  destruct env as [dc lu dr dw dp dd fs pd]. destruct st as [[conn srv] [cfg pid]].
  unfold start_booting, start. run_daemon.
  destruct (dict_mem "last_address" cfg); [|reflexivity].
  run_daemon.
  case_unit_outcome dc; run_daemon; try reflexivity;
    unfold set_client_is_connected, client_up; cbn;
    destruct lu; run_daemon; try reflexivity;
    (case_outcome (dr POWER_CHAR_UUID); run_daemon;
     [| | match goal with
          | |- context [contains ?a ?m || contains ?b ?m] =>
              destruct (contains a m || contains b m)
          end; run_daemon; try case_unit_outcome dp; run_daemon |];
     try case_unit_outcome fs; run_daemon; reflexivity).
Qed.

(** Whatever the auto-connect does, [start] gets to the accept loop. *)
Lemma start_reaches_accept_loop (env : Env) (w : World) :
  result_of (start env (new_daemon, w)) = Ok tt /\
  listening (fst (state_of (start env (new_daemon, w)))) = true /\
  pid_file (snd (state_of (start env (new_daemon, w)))) = true /\
  match connection (fst (state_of (start env (new_daemon, w)))) with
  | Some c => is_connected c = true
  | None => True
  end.
Proof.
  destruct env as [dc lu dr dw dp dd fs pd]. destruct w as [cfg pid].
  unfold start. run_daemon.
  destruct (dict_mem "last_address" cfg); [|cbn; auto].
  run_daemon.
  case_unit_outcome dc; run_daemon; try (cbn; now auto);
    unfold set_client_is_connected, client_up; cbn;
    destruct lu; run_daemon; try (cbn; now auto);
    (case_outcome (dr POWER_CHAR_UUID); run_daemon;
     [| | match goal with
          | |- context [contains ?a ?m || contains ?b ?m] =>
              destruct (contains a m || contains b m)
          end; run_daemon; try case_unit_outcome dp; run_daemon |];
     try case_unit_outcome fs; run_daemon; cbn; auto).
Qed.

(** X15. [start] (up to the accept loop) raises exactly when binding the
    server or writing the pid file raises, and then no auto-connect is
    attempted: a failed bind leaves no server and no pid file, a failed pid
    write leaves the server bound.  When both succeed [start] never raises,
    whatever the auto-connect does: the server is up, the pid file written,
    and the daemon holds a connection object only if that connection is
    connected (a failed auto-connect leaves none). *)
Theorem start_fails_only_at_boot (env : Env) (boot : Boot) (w : World) :
  let x := start_booting env boot (new_daemon, w) in
  (boot_bind boot = Ok tt -> boot_pid_write boot = Ok tt ->
   result_of x = Ok tt /\
   listening (fst (state_of x)) = true /\
   pid_file (snd (state_of x)) = true /\
   match connection (fst (state_of x)) with
   | Some c => is_connected c = true
   | None => True
   end) /\
  (forall e, boot_bind boot = Raised e ->
   x = (Raised e, (new_daemon, w), [ServerStart])) /\
  (forall e, boot_bind boot = Ok tt -> boot_pid_write boot = Raised e ->
   x = (Raised e, (mkHueDaemon None (Some (mkServer true)), w),
        [ServerStart; PidWrite])).
Proof.
  destruct boot as [b p]. cbn [boot_bind boot_pid_write]. cbv zeta.
  split; [|split].
  - intros -> ->. rewrite start_booting_ok. apply start_reaches_accept_loop.
  - intros e ->. destruct w. reflexivity.
  - intros e -> ->. destruct w. reflexivity.
Qed.

(** The port is taken: nothing is started. *)
Lemma start_fails_only_at_boot_witness :
  start_booting good_env
    (mkBoot (Raised (PyException "[Errno 98] Address already in use")) (Ok tt))
    (new_daemon, empty_world) =
  (Raised (PyException "[Errno 98] Address already in use"),
   (new_daemon, empty_world), [ServerStart]).
Proof.
  apply (proj1 (proj2 (start_fails_only_at_boot good_env
                         (mkBoot (Raised (PyException "[Errno 98] Address already in use"))
                                 (Ok tt))
                         empty_world))).
  reflexivity.
Defined.

(** X16. A [brightness] request whose level is a string or null, on a
    connected link, is answered with the failure
    [{ok: false, error: <the TypeError's text>}]: the comparison in the
    clamp raises before the lock is taken, and nothing is written to the
    transport. *)
Theorem brightness_level_not_a_number
    (env : Env) (request : dict) (st : DaemonSt) (level : pyval) :
  dict_get "cmd" request = PStr "brightness" ->
  dict_get_default "level" request (PInt 50) = level ->
  level = PNone \/ (exists s, level = PStr s) ->
  link_connected (fst st) = true ->
  state_of (handle_client env (ReadRequest request) st) = st /\
  exists msg rest,
    events_of (handle_client env (ReadRequest request) st) =
      SockWrite [("ok", PBool false); ("error", PStr msg)] :: SockDrain :: rest /\
    existsb (fun ev => is_wire ev || match ev with LockAcquire => true | _ => false end)
            rest = false.
Proof.
  intros Hcmd Hlv Hlevel Hl.
  unfold handle_client. rewrite (dispatch_brightness env request Hcmd), Hlv.
  destruct env as [dc lu dr dw dp dd fs pd].
  destruct st as [[conn srv] w].
  destruct conn as [c|]; [case_connection c|]; try discriminate Hl.
  destruct Hlevel as [->|[s ->]]; run_daemon;
    unfold clamp_percent; run_daemon;
    case_unit_outcome pd; run_daemon; try case_unit_outcome pd;
    (split; [reflexivity|]); do 2 eexists; split; reflexivity.
Qed.

Lemma brightness_level_not_a_number_witness :
  state_of (handle_client good_env
              (ReadRequest [("cmd", PStr "brightness"); ("level", PStr "high")])
              (live_daemon, empty_world)) = (live_daemon, empty_world) /\
  exists msg rest,
    events_of (handle_client good_env
                 (ReadRequest [("cmd", PStr "brightness"); ("level", PStr "high")])
                 (live_daemon, empty_world)) =
      SockWrite [("ok", PBool false); ("error", PStr msg)] :: SockDrain :: rest /\
    existsb (fun ev => is_wire ev || match ev with LockAcquire => true | _ => false end)
            rest = false.
Proof.
  apply (brightness_level_not_a_number good_env
           [("cmd", PStr "brightness"); ("level", PStr "high")]
           (live_daemon, empty_world) (PStr "high")); try reflexivity.
  right. exists "high". reflexivity.
Defined.

Lemma dict_mem_set (k : string) (v : pyval) (d : dict) :
  dict_mem k (dict_set k v d) = true.
Proof.
  induction d as [|[k0 v0] d IH]; simpl.
  - now rewrite String.eqb_refl.
  - destruct (String.eqb_spec k0 k) as [->|Hk0]; simpl.
    + now rewrite String.eqb_refl.
    + destruct (String.eqb_spec k0 k); [congruence | exact IH].
Qed.

(** A successful [connect] of a fresh connection has saved its address. *)
Lemma connect_true_saves_address
    (env : Env) (timeout : float) (a : pyval) (w : World) :
  result_of (connect env timeout (new_connection a, w)) = Ok true ->
  snd (state_of (connect env timeout (new_connection a, w))) =
    mkWorld (dict_set "last_address" a (config_file w)) (pid_file w).
Proof.
  destruct env as [dc lu dr dw dp dd fs pd]. destruct w as [cfg pid].
  run. case_unit_outcome dc; run; try discriminate;
    unfold set_client_is_connected, client_up; cbn;
    destruct lu; run; try discriminate;
    (case_outcome (dr POWER_CHAR_UUID); run;
     [| | match goal with
          | |- context [contains ?a ?m || contains ?b ?m] =>
              destruct (contains a m || contains b m)
          end; run; try case_unit_outcome dp; run |];
     try case_unit_outcome fs; run; try discriminate; intros _; reflexivity).
Qed.

(** X17. The address a successful [connect] saves is the one the daemon
    auto-connects to at its next start: after [connect] has returned true,
    the config file's [last_address] is the connection's address, and
    [start] goes on, after binding and writing the pid file, to connect to
    that address. *)
Theorem saved_address_is_auto_connected
    (env : Env) (timeout : float) (a : pyval) (w : World) :
  result_of (connect env timeout (new_connection a, w)) = Ok true ->
  let w' := snd (state_of (connect env timeout (new_connection a, w))) in
  dict_get "last_address" (config_file w') = a /\
  exists rest,
    events_of (start env (new_daemon, w')) =
      ServerStart :: PidWrite :: Stdout "Hue daemon listening on port 19847"
      :: Stdout ("Auto-connecting to " ++ py_str a ++ "...")%string
      :: BleConnect a :: rest.
Proof.
  intros H. rewrite (connect_true_saves_address env timeout a w H). cbn zeta.
  cbn [config_file]. unfold dict_get. rewrite dict_get_default_set_same.
  split; [reflexivity|].
  unfold start. run_daemon. rewrite dict_mem_set.
  unfold dict_get. rewrite dict_get_default_set_same. run_daemon.
  destruct env as [dc lu dr dw dp dd fs pd].
  case_unit_outcome dc; run_daemon;
    try (eexists; reflexivity);
    unfold set_client_is_connected, client_up; cbn;
    destruct lu; run_daemon; try (eexists; reflexivity);
    (case_outcome (dr POWER_CHAR_UUID); run_daemon;
     [| | match goal with
          | |- context [contains ?a ?m || contains ?b ?m] =>
              destruct (contains a m || contains b m)
          end; run_daemon; try case_unit_outcome dp; run_daemon |];
     try case_unit_outcome fs; run_daemon; eexists; reflexivity).
Qed.

Lemma saved_address_is_auto_connected_witness :
  let w' := snd (state_of (connect good_env 30%float
                             (new_connection (PStr "AA:BB"), empty_world))) in
  dict_get "last_address" (config_file w') = PStr "AA:BB" /\
  exists rest,
    events_of (start good_env (new_daemon, w')) =
      ServerStart :: PidWrite :: Stdout "Hue daemon listening on port 19847"
      :: Stdout ("Auto-connecting to " ++ py_str (PStr "AA:BB") ++ "...")%string
      :: BleConnect (PStr "AA:BB") :: rest.
Proof.
  apply (saved_address_is_auto_connected good_env 30%float (PStr "AA:BB") empty_world).
  reflexivity.
Defined.

(* ================================================================== *)
(** * The scanner's filter *)

Lemma found_bulb_shape (d : Discovered) (bulb : dict) :
  In bulb (found_bulb d) ->
  exists name,
    bulb = [("address", PStr (device_address d)); ("name", PStr name)] /\
    name <> "".
Proof.
  unfold found_bulb.
  destruct (string_in _ _).
  - intros [<-|[]].
    destruct (device_name d) as [n|].
    + destruct (String.eqb_spec n "").
      * eexists; split; [reflexivity | discriminate].
      * eexists; split; [reflexivity | assumption].
    + eexists; split; [reflexivity | discriminate].
  - destruct (device_name d) as [n|]; [|intros []].
    destruct (String.eqb_spec n ""); simpl; [intros []|].
    destruct (contains "Hue" n); [|intros []].
    intros [<-|[]]. eexists; split; [reflexivity | assumption].
Qed.

(** X18. Every bulb [scan_for_bulbs] returns is one of the discovered
    devices, under its own address, and carries a name that is not empty
    (an unnamed device gets "Unknown Hue Bulb"). *)
Theorem scan_results_are_discovered (devices : list Discovered) (bulb : dict) :
  In bulb (scan_for_bulbs devices) ->
  exists d name,
    In d devices /\
    bulb = [("address", PStr (device_address d)); ("name", PStr name)] /\
    name <> "".
Proof.
  induction devices as [|d devices IH]; simpl; [intros []|].
  intros H. apply in_app_or in H. destruct H as [H|H].
  - destruct (found_bulb_shape d bulb H) as (name & Hb & Hn).
    exists d, name. auto.
  - destruct (IH H) as (d' & name & Hin & Hb & Hn).
    exists d', name. auto.
Qed.

Lemma scan_results_are_discovered_witness :
  exists d name,
    In d [mkDiscovered "AA:BB" None [HUE_SERVICE_UUID]] /\
    [("address", PStr "AA:BB"); ("name", PStr "Unknown Hue Bulb")] =
      [("address", PStr (device_address d)); ("name", PStr name)] /\
    name <> "".
Proof.
  apply (scan_results_are_discovered
           [mkDiscovered "AA:BB" None [HUE_SERVICE_UUID]]
           [("address", PStr "AA:BB"); ("name", PStr "Unknown Hue Bulb")]).
  left. reflexivity.
Defined.

Lemma string_in_map_lower (u : string) (uuids : list string) :
  In u uuids -> string_in (lower u) (map lower uuids) = true.
Proof.
  intros H. unfold string_in. apply existsb_exists.
  exists (lower u). split; [now apply in_map | apply String.eqb_refl].
Qed.

(** X19. A device that advertises the Hue service is always found, whatever
    the letter case of the advertised UUID and whatever its name, even with
    no name at all. *)
Theorem scan_finds_hue_service (devices : list Discovered) (d : Discovered) (u : string) :
  In d devices ->
  In u (service_uuids d) ->
  lower u = HUE_SERVICE_UUID ->
  exists name,
    In [("address", PStr (device_address d)); ("name", PStr name)]
       (scan_for_bulbs devices).
Proof.
  intros Hd Hu Hl.
  assert (Hfound : exists name,
            found_bulb d = [[("address", PStr (device_address d)); ("name", PStr name)]]).
  { unfold found_bulb.
    replace (lower HUE_SERVICE_UUID) with (lower u)
      by (rewrite Hl; reflexivity).
    rewrite (string_in_map_lower u _ Hu). eexists. reflexivity. }
  destruct Hfound as [name Hfound]. exists name.
  induction devices as [|d' devices IH]; [destruct Hd|].
  simpl. apply in_or_app. destruct Hd as [->|Hd].
  - left. rewrite Hfound. left. reflexivity.
  - right. exact (IH Hd).
Qed.

Lemma scan_finds_hue_service_witness :
  exists name,
    In [("address", PStr "AA:BB"); ("name", PStr name)]
       (scan_for_bulbs
          [mkDiscovered "11:22" (Some "Speaker") [];
           mkDiscovered "AA:BB" None ["932C32BD-0000-47A2-835A-A8D455B859DD"]]).
Proof.
  apply (scan_finds_hue_service
           [mkDiscovered "11:22" (Some "Speaker") [];
            mkDiscovered "AA:BB" None ["932C32BD-0000-47A2-835A-A8D455B859DD"]]
           (mkDiscovered "AA:BB" None ["932C32BD-0000-47A2-835A-A8D455B859DD"])
           "932C32BD-0000-47A2-835A-A8D455B859DD").
  - right. left. reflexivity.
  - left. reflexivity.
  - reflexivity.
Defined.

(** Devices that are neither are passed over, and the order is kept. *)
Example scan_sample :
  scan_for_bulbs
    [mkDiscovered "11:22" (Some "Speaker") [];
     mkDiscovered "33:44" (Some "Hue white lamp") [];
     mkDiscovered "55:66" (Some "hue") ["0000180a-0000-1000-8000-00805f9b34fb"];
     mkDiscovered "AA:BB" (Some "") ["932C32BD-0000-47A2-835A-A8D455B859DD"]] =
  [[("address", PStr "33:44"); ("name", PStr "Hue white lamp")];
   [("address", PStr "AA:BB"); ("name", PStr "Unknown Hue Bulb")]].
Proof. vm_compute. reflexivity. Qed.

(* ================================================================== *)
(** * The one-off wrapper *)

Ltac run_bulb :=
  cbv [HueBulb.async_with HueBulb.__aenter__ HueBulb.__aexit__ HueBulb.connect
       HueBulb.disconnect HueBulb.turn_on HueBulb.turn_off HueBulb.set_brightness
       HueBulb.get_state HueBulb.on_conn HueBulb.set_conn HueBulb.new
       Cli.on_world];
  run_daemon.

(** Case analysis on everything [connect] asks of the collaborators, once
    the transport's connect has answered and the link is up. *)
Ltac case_probe dr dp fs :=
  case_outcome (dr POWER_CHAR_UUID); run_bulb;
  [| | match goal with
       | |- context [contains ?a ?m || contains ?b ?m] =>
           destruct (contains a m || contains b m)
       end; run_bulb; try case_unit_outcome dp; run_bulb |];
  try case_unit_outcome fs; run_bulb.

(** X20. The one-off wrapper never leaves a link open: once the transport
    has connected with the link up, whatever the operation in the [async
    with] block does (succeed, fail or raise) and even when [connect] itself
    reported failure, the block's first step is the connect and its last
    step is the transport's disconnect. *)
Theorem one_off_always_disconnects
    (env : Env) (a : pyval) (percent : pyval) (w : World) :
  dev_connect env = Ok tt -> dev_link_up env = true ->
  let closes (t : list event) :=
    hd_error t = Some (BleConnect a) /\ last t LockAcquire = BleDisconnect in
  closes (events_of (HueBulb.async_with env a (HueBulb.turn_on env) w)) /\
  closes (events_of (HueBulb.async_with env a (HueBulb.turn_off env) w)) /\
  closes (events_of (HueBulb.async_with env a (HueBulb.set_brightness env percent) w)) /\
  closes (events_of (HueBulb.async_with env a (HueBulb.get_state env) w)).
Proof.
  intros Hc Hl. destruct env as [dc lu dr dw dp dd fs pd].
  cbn in Hc, Hl. subst dc lu. destruct w as [cfg pid].
  repeat split; run_bulb; unfold set_client_is_connected, client_up; cbn; run_bulb;
    case_probe dr dp fs;
    unfold is_connected; cbn; run_bulb;
    repeat match goal with
    | |- context [match ?o with Ok _ => _ | Raised _ => _ end] =>
        case_outcome o; run_bulb
    end;
    try (case_unit_outcome dd; run_bulb); reflexivity.
Qed.

Lemma one_off_always_disconnects_witness :
  hd_error (events_of (HueBulb.async_with good_env (PStr "AA:BB")
                         (HueBulb.turn_on good_env) empty_world))
    = Some (BleConnect (PStr "AA:BB")) /\
  last (events_of (HueBulb.async_with good_env (PStr "AA:BB")
                     (HueBulb.turn_on good_env) empty_world)) LockAcquire
    = BleDisconnect.
Proof.
  exact (proj1 (one_off_always_disconnects good_env (PStr "AA:BB") (PInt 50)
                  empty_world eq_refl eq_refl)).
Defined.

(** A one-off [turn_on] from start to end. *)
Example one_off_turn_on :
  HueBulb.async_with good_env (PStr "AA:BB") (HueBulb.turn_on good_env) empty_world =
  (Ok true, mkWorld [("last_address", PStr "AA:BB")] false,
   [BleConnect (PStr "AA:BB"); BleRead POWER_CHAR_UUID;
    ConfigSave [("last_address", PStr "AA:BB")];
    LockAcquire; BleWrite POWER_CHAR_UUID [x01]; LockRelease; BleDisconnect]).
Proof. vm_compute. reflexivity. Qed.

(** X21. When the link cannot be brought up (the transport's connect raises,
    or reports the link down), a one-off operation does not raise: it
    returns False (None for [get_state]) and, the connect attempt apart,
    nothing goes over the wire. *)
Theorem one_off_without_link
    (env : Env) (a : pyval) (percent : pyval) (w : World) :
  (exists e, dev_connect env = Raised e) \/ dev_link_up env = false ->
  let quiet {A} (x : outcome A * World * list event) (r : A) :=
    result_of x = Ok r /\ filter is_wire (events_of x) = [BleConnect a] in
  quiet (HueBulb.async_with env a (HueBulb.turn_on env) w) false /\
  quiet (HueBulb.async_with env a (HueBulb.turn_off env) w) false /\
  quiet (HueBulb.async_with env a (HueBulb.set_brightness env percent) w) false /\
  quiet (HueBulb.async_with env a (HueBulb.get_state env) w) None.
Proof.
  intros H. destruct env as [dc lu dr dw dp dd fs pd]. cbn in H.
  destruct w as [cfg pid].
  destruct H as [[e ->]| ->].
  - repeat split; run_bulb; destruct e; reflexivity.
  - repeat split; run_bulb; case_unit_outcome dc; run_bulb; reflexivity.
Qed.

Lemma one_off_without_link_witness :
  result_of (HueBulb.async_with absent_env (PStr "AA:BB")
               (HueBulb.turn_on absent_env) empty_world) = Ok false /\
  filter is_wire (events_of (HueBulb.async_with absent_env (PStr "AA:BB")
                               (HueBulb.turn_on absent_env) empty_world))
    = [BleConnect (PStr "AA:BB")].
Proof.
  refine (proj1 (one_off_without_link absent_env (PStr "AA:BB") (PInt 50)
                   empty_world _)).
  right. reflexivity.
Defined.

(* ================================================================== *)
(** * The clients *)

Ltac run_client :=
  cbv [send_command is_daemon_running exchange session main
       Api.send_to_daemon Api.ensure_connected Api.and_then Api.get_status
       Api.turn_on Api.turn_off Api.toggle Api.set_brightness Api.StatusResponse
       Cli.try_daemon_command Cli.get_address Cli.cmd_on Cli.cmd_off
       Cli.cmd_brightness Cli.result_ok];
  run_bulb.

(** X22. With no daemon listening, the connection is refused: [send_command]
    answers [{ok: false, error: "Daemon not running"}], the probe
    [is_daemon_running] says False, [daemon.py stop] prints the error, and
    every endpoint of the HTTP wrapper that talks to the daemon raises 503;
    nothing else happens. *)
Theorem without_a_daemon (env : Env) (net : Net) (cmd : dict) (level : Z) (st : DaemonSt) :
  listening (fst st) = false ->
  send_command env net cmd st =
    (Ok [("ok", PBool false); ("error", PStr "Daemon not running")], st, []) /\
  is_daemon_running env st = (Ok false, st, []) /\
  main env net ["daemon.py"; "stop"] st =
    (Ok tt, st, [Stdout "Error: Daemon not running"]) /\
  (let refused := (Ok (Api.HTTPException 503 (PStr "Daemon not running")), st, []) in
   Api.get_status env net st = refused /\
   Api.turn_on env net st = refused /\
   Api.turn_off env net st = refused /\
   Api.toggle env net st = refused /\
   (1 <= level <= 100 -> Api.set_brightness env net level st = refused)).
Proof.
  intros H. destruct st as [d w]. cbn in H.
  repeat split; try (run_client; rewrite H; reflexivity).
  intros Hl. unfold Api.set_brightness.
  replace ((level <? 1) || (100 <? level)) with false
    by (symmetry; apply orb_false_iff; lia).
  run_client. rewrite H. reflexivity.
Qed.

Lemma without_a_daemon_witness :
  send_command good_env NetOk [("cmd", PStr "ping")] (new_daemon, empty_world) =
    (Ok [("ok", PBool false); ("error", PStr "Daemon not running")],
     (new_daemon, empty_world), []).
Proof.
  exact (proj1 (without_a_daemon good_env NetOk [("cmd", PStr "ping")] 50
                  (new_daemon, empty_world) eq_refl)).
Defined.

(** The probe is harmless: [is_daemon_running] on a listening daemon
    answers True, and the session it opens (a connection closed without a
    request) leaves the daemon's state as it was and touches no wire. *)
Lemma probe_is_harmless (env : Env) (st : DaemonSt) :
  listening (fst st) = true ->
  is_daemon_running env st = (Ok true, st, [SockClose; SockWaitClosed]).
Proof.
  intros H. destruct st as [d w]. cbn in H. run_client. rewrite H. reflexivity.
Qed.

(** X23. [daemon.py start] beside a running daemon starts nothing: it
    prints "Daemon already running", binds no second server, writes no pid
    file and leaves the running daemon as it is. *)
Theorem start_beside_running_daemon (env : Env) (net : Net) (st : DaemonSt) :
  listening (fst st) = true ->
  main env net ["daemon.py"; "start"] st =
    (Ok tt, st, [SockClose; SockWaitClosed; Stdout "Daemon already running"]).
Proof.
  intros H. destruct st as [d w]. cbn in H. run_client. rewrite H. reflexivity.
Qed.

Lemma start_beside_running_daemon_witness :
  main good_env NetOk ["daemon.py"; "start"] (live_daemon, empty_world) =
    (Ok tt, (live_daemon, empty_world),
     [SockClose; SockWaitClosed; Stdout "Daemon already running"]).
Proof.
  apply (start_beside_running_daemon good_env NetOk (live_daemon, empty_world)).
  reflexivity.
Defined.

(** X24. [daemon.py stop] against a listening daemon, the network in time,
    the response flushed and the transport's disconnect not failing: the
    client reads the daemon's [{ok: true, message: "Shutting down"}] and
    prints "Daemon stopped"; and when the daemon's handling of the request
    has run to its end, the daemon is stopped: it no longer listens, its
    link is down and its pid file is gone. *)
Theorem stop_command_stops_daemon (env : Env) (st : DaemonSt) :
  listening (fst st) = true ->
  peer_drain env = Ok tt ->
  dev_disconnect env = Ok tt ->
  let x := main env NetOk ["daemon.py"; "stop"] st in
  result_of x = Ok tt /\
  first_response (events_of x) = Some shutting_down /\
  existsb (fun ev => match ev with
                     | Stdout msg => (msg =? "Daemon stopped")%string
                     | _ => false
                     end) (events_of x) = true /\
  listening (fst (state_of x)) = false /\
  link_connected (fst (state_of x)) = false /\
  pid_file (snd (state_of x)) = false.
Proof.
  intros Hl Hp Hd. destruct env as [dc lu dr dw dp dd fs pd].
  cbn in Hp, Hd. subst pd dd.
  destruct st as [[conn [[sv]|]] [cfg pid]]; cbn in Hl; try discriminate Hl.
  subst sv.
  destruct conn as [c|]; [destruct c as [a [[ca ct [|]]|] ev [|]]|];
    destruct pid; cbn; repeat split.
Qed.

Lemma stop_command_stops_daemon_witness :
  let x := main good_env NetOk ["daemon.py"; "stop"] (live_daemon, mkWorld [] true) in
  result_of x = Ok tt /\
  first_response (events_of x) = Some shutting_down /\
  existsb (fun ev => match ev with
                     | Stdout msg => (msg =? "Daemon stopped")%string
                     | _ => false
                     end) (events_of x) = true /\
  listening (fst (state_of x)) = false /\
  link_connected (fst (state_of x)) = false /\
  pid_file (snd (state_of x)) = false.
Proof.
  apply (stop_command_stops_daemon good_env (live_daemon, mkWorld [] true));
    reflexivity.
Defined.

(** X25. The range check of the brightness level is the clients': for a
    level outside 1..100 the HTTP endpoint raises 400 and the CLI command
    (its address given) prints its message and exits with 1, and neither
    contacts the daemon: no session, no wire operation, no change. *)
Theorem clients_reject_out_of_range
    (env : Env) (net : Net) (level : Z) (a : string) (st : DaemonSt) :
  level < 1 \/ 100 < level ->
  a <> "" ->
  Api.set_brightness env net level st =
    (Ok (Api.HTTPException 400 (PStr "Brightness must be 1-100")), st, []) /\
  Cli.cmd_brightness env net (Cli.mkArgs (Some a) level) st =
    (Ok 1, st, [Stdout "Brightness must be between 1 and 100"]).
Proof.
  intros Hl Ha.
  assert (Hb : (level <? 1) || (100 <? level) = true) by (apply orb_true_iff; lia).
  split.
  - unfold Api.set_brightness. rewrite Hb. reflexivity.
  - unfold Cli.cmd_brightness, Cli.get_address. cbn [Cli.address Cli.level].
    apply String.eqb_neq in Ha. rewrite Ha. run_client.
    destruct a; [discriminate|]. cbn. rewrite Hb. reflexivity.
Qed.

Lemma clients_reject_out_of_range_witness :
  Api.set_brightness good_env NetOk 150 (live_daemon, empty_world) =
    (Ok (Api.HTTPException 400 (PStr "Brightness must be 1-100")),
     (live_daemon, empty_world), []) /\
  Cli.cmd_brightness good_env NetOk (Cli.mkArgs (Some "AA:BB") 150)
    (live_daemon, empty_world) =
    (Ok 1, (live_daemon, empty_world), [Stdout "Brightness must be between 1 and 100"]).
Proof.
  apply (clients_reject_out_of_range good_env NetOk 150 "AA:BB"
           (live_daemon, empty_world)).
  - right. lia.
  - discriminate.
Defined.

(** The daemon's link is down: no connection object, or one that is not
    connected. *)
Ltac case_link_down d Hdown :=
  let c := fresh "c" in
  destruct d as [[c|] ?]; [case_connection c|]; try discriminate Hdown.

(** X26. Connect-then-act is the HTTP wrapper's doing.  [turn_on], finding a
    listening daemon whose link is down and a saved address, has the daemon
    connect to that address and then switch the bulb on: with a healthy
    peripheral the result is [{ok: true}], the daemon's link is up
    afterwards, and over the wire went the connect, its probing read and the
    power write, in this order. *)
Theorem api_turn_on_connects_first
    (env : Env) (st : DaemonSt) (data : list byte) :
  listening (fst st) = true ->
  link_connected (fst st) = false ->
  truthy (dict_get "last_address" (config_file (snd st))) = true ->
  dev_connect env = Ok tt -> dev_link_up env = true ->
  dev_read env POWER_CHAR_UUID = Ok data ->
  fs_save_config env = Ok tt ->
  dev_write env POWER_CHAR_UUID [x01] = Ok tt ->
  peer_drain env = Ok tt ->
  let x := Api.turn_on env NetOk st in
  result_of x = Ok (Api.Http200 [("ok", PBool true)]) /\
  link_connected (fst (state_of x)) = true /\
  filter is_wire (events_of x) =
    [BleConnect (dict_get "last_address" (config_file (snd st)));
     BleRead POWER_CHAR_UUID; BleWrite POWER_CHAR_UUID [x01]].
Proof.
  intros Hl Hdown Ha Hc Hu Hr Hs Hw Hp.
  destruct env as [dc lu dr dw dp dd fs pd]. cbn in Hc, Hu, Hr, Hs, Hw, Hp.
  subst dc lu fs pd.
  destruct st as [d [cfg pid]]. cbn in Ha.
  case_link_down d Hdown;
    match goal with
    | s : option Server |- _ =>
        destruct s as [[sv]|]; cbn in Hl; try discriminate Hl; subst sv
    end;
    run_client; unfold handle_connect; run_client; rewrite Ha; run_client;
    unfold set_client_is_connected, client_up; cbn; run_client;
    rewrite Hr; run_client; rewrite Hw; run_client; repeat split.
Qed.

(** A daemon that has started with nothing to connect to, beside a config
    file that names a bulb. *)
Lemma api_turn_on_connects_first_witness :
  let st := (mkHueDaemon None (Some (mkServer true)),
             mkWorld [("last_address", PStr "AA:BB")] true) in
  let x := Api.turn_on good_env NetOk st in
  result_of x = Ok (Api.Http200 [("ok", PBool true)]) /\
  link_connected (fst (state_of x)) = true /\
  filter is_wire (events_of x) =
    [BleConnect (dict_get "last_address" (config_file (snd st)));
     BleRead POWER_CHAR_UUID; BleWrite POWER_CHAR_UUID [x01]].
Proof.
  intros st.
  apply (api_turn_on_connects_first good_env st [x01]); reflexivity.
Defined.

(** X27. Without a link there is no write.  When the daemon is listening
    with its link down and cannot connect (no address is saved, or the
    transport's connect raises), [turn_on] raises 503 "Failed to connect to
    bulb" and the [on] command is never sent: nothing is written to the
    peripheral. *)
Theorem api_turn_on_needs_link (env : Env) (st : DaemonSt) :
  listening (fst st) = true ->
  link_connected (fst st) = false ->
  truthy (dict_get "last_address" (config_file (snd st))) = false \/
  (exists e, dev_connect env = Raised e) ->
  peer_drain env = Ok tt ->
  let x := Api.turn_on env NetOk st in
  result_of x = Ok (Api.HTTPException 503 (PStr "Failed to connect to bulb")) /\
  existsb (fun ev => match ev with BleWrite _ _ => true | _ => false end)
          (events_of x) = false.
Proof.
  intros Hl Hdown Hno Hp.
  destruct env as [dc lu dr dw dp dd fs pd].
  cbn [peer_drain dev_connect] in Hno, Hp. subst pd.
  destruct st as [d [cfg pid]]. cbn [fst snd config_file] in Hno.
  case_link_down d Hdown;
    match goal with
    | s : option Server |- _ =>
        destruct s as [[sv]|]; cbn in Hl; try discriminate Hl; subst sv
    end;
    (destruct (truthy (dict_get "last_address" cfg)) eqn:Ha;
     [ destruct Hno as [Hno|[e ->]]; [discriminate Hno|]; unfold dict_get in Ha;
       run_client; unfold handle_connect; run_client; rewrite Ha; run_client;
       destruct e; run_client; split; reflexivity
     | unfold dict_get in Ha;
       run_client; unfold handle_connect; run_client; rewrite Ha; run_client;
       split; reflexivity ]).
Qed.

Lemma api_turn_on_needs_link_witness :
  let st := (mkHueDaemon None (Some (mkServer true)), empty_world) in
  let x := Api.turn_on good_env NetOk st in
  result_of x = Ok (Api.HTTPException 503 (PStr "Failed to connect to bulb")) /\
  existsb (fun ev => match ev with BleWrite _ _ => true | _ => false end)
          (events_of x) = false.
Proof.
  intros st. apply (api_turn_on_needs_link good_env st); try reflexivity.
  left. reflexivity.
Defined.

Lemma dispatch_status (env : Env) (request : dict) :
  dict_get "cmd" request = PStr "status" ->
  dispatch env request =
  (st <- get ;;
   if link_connected (fst st) then
     state <- on_connection (get_state env) ;;
     match state with
     | Some ((_ :: _) as state) => ret (Some (("ok", PBool true) :: state))
     | _ => ret (Some [("ok", PBool false); ("error", PStr "Failed to read state")])
     end
   else ret (Some not_connected)).
Proof. intros H. unfold dispatch. rewrite H. reflexivity. Qed.

(** X28. [toggle] flips what it reads.  On a listening daemon with its link
    up and a healthy peripheral, [toggle] reads the state and writes the
    opposite power byte: 0 when the bulb reported on, 1 otherwise; its
    answer names the new power, and these three are all that goes over the
    wire. *)
Theorem api_toggle_flips
    (env : Env) (st : DaemonSt) (power_data brightness_data : list byte) :
  listening (fst st) = true ->
  link_connected (fst st) = true ->
  dev_read env POWER_CHAR_UUID = Ok power_data ->
  dev_read env BRIGHTNESS_CHAR_UUID = Ok brightness_data ->
  (forall data, dev_write env POWER_CHAR_UUID data = Ok tt) ->
  peer_drain env = Ok tt ->
  let was_on := match power_data with
                | b :: _ => byte_value b =? 1
                | [] => false
                end in
  let x := Api.toggle env NetOk st in
  result_of x =
    Ok (Api.Http200 [("ok", PBool true);
                     ("power", PStr (if was_on then "off" else "on"))]) /\
  state_of x = st /\
  filter is_wire (events_of x) =
    [BleRead POWER_CHAR_UUID; BleRead BRIGHTNESS_CHAR_UUID;
     BleWrite POWER_CHAR_UUID [if was_on then x00 else x01]].
Proof.
  intros Hl Hup Hpw Hbr Hw Hp was_on.
  assert (Hraw : exists raw : byte,
            match brightness_data with b :: _ => byte_value b | [] => 1 end
            = byte_value raw).
  { destruct brightness_data as [|b ?]; [exists x01 | exists b]; reflexivity. }
  destruct Hraw as [raw Hraw].
  destruct env as [dc lu dr dw dp dd fs pd]. cbn in Hpw, Hbr, Hw, Hp. subst pd.
  destruct st as [[conn srv] w].
  destruct conn as [c|]; [|discriminate Hup].
  destruct srv as [[sv]|]; cbn in Hl; try discriminate Hl. subst sv.
  case_connection c; try discriminate Hup.
  do 2 run_client. rewrite Hpw. run_client. rewrite Hbr. run_client.
  rewrite Hraw, brightness_percent_quotient. run_client.
  fold was_on. destruct was_on; run_client; rewrite Hw; run_client; repeat split.
Qed.

Lemma api_toggle_flips_witness :
  let x := Api.toggle good_env NetOk (live_daemon, empty_world) in
  result_of x = Ok (Api.Http200 [("ok", PBool true); ("power", PStr "off")]) /\
  state_of x = (live_daemon, empty_world) /\
  filter is_wire (events_of x) =
    [BleRead POWER_CHAR_UUID; BleRead BRIGHTNESS_CHAR_UUID;
     BleWrite POWER_CHAR_UUID [x00]].
Proof.
  apply (api_toggle_flips good_env (live_daemon, empty_world) [x01] [x7f]);
    reflexivity.
Defined.

(** X29. With a daemon the link persists.  [cli.py on], its address given,
    beside a listening daemon whose link is down and a healthy peripheral:
    the daemon connects and switches the bulb on, the command exits with 0
    saying so, and the link is left up for the next command (no
    disconnect). *)
Theorem cli_on_via_daemon
    (env : Env) (st : DaemonSt) (a : string) (data : list byte) :
  a <> "" ->
  listening (fst st) = true ->
  link_connected (fst st) = false ->
  dev_connect env = Ok tt -> dev_link_up env = true ->
  dev_read env POWER_CHAR_UUID = Ok data ->
  fs_save_config env = Ok tt ->
  dev_write env POWER_CHAR_UUID [x01] = Ok tt ->
  peer_drain env = Ok tt ->
  let x := Cli.cmd_on env NetOk (Cli.mkArgs (Some a) 0) st in
  result_of x = Ok 0 /\
  last (events_of x) LockAcquire = Stdout "Bulb turned ON (via daemon)" /\
  link_connected (fst (state_of x)) = true /\
  filter is_wire (events_of x) =
    [BleConnect (PStr a); BleRead POWER_CHAR_UUID; BleWrite POWER_CHAR_UUID [x01]].
Proof.
  intros Hne Hl Hdown Hc Hu Hr Hs Hw Hp.
  destruct env as [dc lu dr dw dp dd fs pd]. cbn in Hc, Hu, Hr, Hs, Hw, Hp.
  subst dc lu fs pd.
  destruct st as [d [cfg pid]].
  assert (Ha : (a =? "")%string = false) by now apply String.eqb_neq.
  assert (Ht : truthy (PStr a) = true) by (cbn; now rewrite Ha).
  case_link_down d Hdown;
    match goal with
    | s : option Server |- _ =>
        destruct s as [[sv]|]; cbn in Hl; try discriminate Hl; subst sv
    end;
    repeat (progress (run_client;
                      unfold handle_connect, set_client_is_connected, client_up;
                      cbn; rewrite ?Ha, ?Hr, ?Hw));
    repeat split.
Qed.

Lemma cli_on_via_daemon_witness :
  let st := (mkHueDaemon None (Some (mkServer true)), empty_world) in
  let x := Cli.cmd_on good_env NetOk (Cli.mkArgs (Some "AA:BB") 0) st in
  result_of x = Ok 0 /\
  last (events_of x) LockAcquire = Stdout "Bulb turned ON (via daemon)" /\
  link_connected (fst (state_of x)) = true /\
  filter is_wire (events_of x) =
    [BleConnect (PStr "AA:BB"); BleRead POWER_CHAR_UUID;
     BleWrite POWER_CHAR_UUID [x01]].
Proof.
  intros st.
  apply (cli_on_via_daemon good_env st "AA:BB" [x01]); try reflexivity.
  discriminate.
Defined.

(** X30. Without a daemon every command pays for the link.  [cli.py on], its
    address given, with no daemon listening and a healthy peripheral:
    the command connects on its own, switches the bulb on, disconnects and
    exits with 0; the daemon's state is not touched. *)
Theorem cli_on_without_daemon
    (env : Env) (net : Net) (st : DaemonSt) (a : string) (data : list byte) :
  a <> "" ->
  listening (fst st) = false ->
  dev_connect env = Ok tt -> dev_link_up env = true ->
  dev_read env POWER_CHAR_UUID = Ok data ->
  fs_save_config env = Ok tt ->
  dev_write env POWER_CHAR_UUID [x01] = Ok tt ->
  dev_disconnect env = Ok tt ->
  let x := Cli.cmd_on env net (Cli.mkArgs (Some a) 0) st in
  result_of x = Ok 0 /\
  fst (state_of x) = fst st /\
  filter is_wire (events_of x) =
    [BleConnect (PStr a); BleRead POWER_CHAR_UUID; BleWrite POWER_CHAR_UUID [x01];
     BleDisconnect] /\
  first_response (events_of x) = None.
Proof.
  intros Hne Hl Hc Hu Hr Hs Hw Hd.
  destruct env as [dc lu dr dw dp dd fs pd]. cbn in Hc, Hu, Hr, Hs, Hw, Hd.
  subst dc lu fs dd.
  destruct st as [d [cfg pid]]. cbn in Hl.
  assert (Ha : (a =? "")%string = false) by now apply String.eqb_neq.
  repeat (progress (run_client;
                    unfold set_client_is_connected, client_up;
                    cbn; rewrite ?Ha, ?Hl, ?Hr, ?Hw)).
  repeat split.
Qed.

Lemma cli_on_without_daemon_witness :
  let x := Cli.cmd_on good_env NetOk (Cli.mkArgs (Some "AA:BB") 0)
             (new_daemon, empty_world) in
  result_of x = Ok 0 /\
  fst (state_of x) = fst (new_daemon, empty_world) /\
  filter is_wire (events_of x) =
    [BleConnect (PStr "AA:BB"); BleRead POWER_CHAR_UUID;
     BleWrite POWER_CHAR_UUID [x01]; BleDisconnect] /\
  first_response (events_of x) = None.
Proof.
  apply (cli_on_without_daemon good_env NetOk (new_daemon, empty_world) "AA:BB" [x01]);
    try reflexivity.
  discriminate.
Defined.
